(** * ct_server: the CT personality's supervisory [main]

    A shallow embedding of [trillian/ctfe/ct_server/main.go].  The Go [main]
    is sequential code that calls external collaborators (glog, etcd, grpc,
    ctfe, net/http, time) and starts goroutines.  The embedding threads an
    explicit process state through a small state-and-abort monad:

    - every call that is visible from outside is appended to a [trace];
    - the answers of the collaborators are read from a [World] record;
    - [os.Exit] (also through [glog.Exitf]) aborts without running deferred
      calls, a panic and a normal return of [main] run them in LIFO order;
    - a [go] statement is an event; the body of each goroutine is a function
      of its own. *)

From stdpp Require Import base strings list sorting gmap.
From Stdlib Require Import ZArith Ascii String Lia.

Local Open Scope Z_scope.
Local Open Scope string_scope.

(** ** Data *)

(** A non-nil Go [error], identified by its message. *)
Definition error := string.

(** [time.Duration] and [time.Time], in nanoseconds. *)
Definition Duration := Z.
Definition Time := Z.

(** [naming.Operation] and [naming.Update]. *)
Inductive Operation := Add | Delete.

Record Update := { Op : Operation; Addr : string }.

(** [configpb.LogConfig], restricted to the fields [main] reads. *)
Record LogConfig := { LogId : Z; Prefix : string }.

(** [ctfe.AppHandler]; [ctfe.PathHandlers] is [map[string]AppHandler]. *)
Record AppHandler := { Name : string; Method : string }.

(** The [http.Handler] values that [main] installs. *)
Inductive Handler :=
| HApp (h : AppHandler)
| HProm.

(** The two [naming.Resolver] implementations [main] chooses from. *)
Inductive Resolver :=
| GRPCResolver (endpoints : list string)
| FixedBackendResolver.

Inductive Signal := SIGINT | SIGTERM.

(** The command-line flags, after [flag.Parse].  [v] is glog's verbosity. *)
Record Flags := {
  httpEndpoint : string;
  metricsEndpoint : string;
  rpcBackendFlag : string;
  rpcDeadlineFlag : Duration;
  getSTHInterval : Duration;
  logConfigFlag : string;
  maxGetEntriesFlag : Z;
  etcdServers : string;
  etcdHTTPService : string;
  etcdMetricsService : string;
  v : Z
}.

Definition default_flags : Flags := {|
  httpEndpoint := "localhost:6962";
  metricsEndpoint := "localhost:6963";
  rpcBackendFlag := "localhost:8090";
  rpcDeadlineFlag := 10 * 1000000000;
  getSTHInterval := 180 * 1000000000;
  logConfigFlag := "";
  maxGetEntriesFlag := 0;
  etcdServers := "";
  etcdHTTPService := "trillian-ctfe-http";
  etcdMetricsService := "trillian-ctfe-metrics-http";
  v := 0
|}.

(** A ticker made by [time.NewTicker]: [created_at] is the position in the
    trace of the call that made it. *)
Record Ticker := { created_at : nat; period : Duration }.

(** ** Log messages and events *)

Inductive Severity := INFO | WARNING | FATAL.

(** One constructor per format string of the source, with its arguments. *)
Inductive Msg :=
| MsgFailedReadConfig (err : error)
| MsgStarting
| MsgEtcdConnectFailed (servers : string) (err : error)
| MsgAnnouncing (service : string) (u : Update)
| MsgRemoving (service : string) (u : Update)
| MsgDialFailed (err : error)
| MsgSetUpFailed (cfg : list LogConfig) (err : error)
| MsgMetricsExited (err : error)
| MsgStartGetSTH (prefix : string) (id : Z)
| MsgTick (t : Time) (prefix : string) (id : Z)
| MsgTreeHeadFailed (prefix : string) (id : Z) (err : error)
| MsgServerExited (err : error)
| MsgSignalReceived (sig : Signal).

Inductive Goroutine :=
| GMetricsServer (addr : string)
| GRefresher (c : LogConfig) (ticker : Ticker)
| GAwaitSignal.

Inductive Event :=
| EvLog (sev : Severity) (m : Msg)
| EvFlush
| EvCopyStandardLogTo (sev : Severity)
| EvEtcdNew (endpoints : list string)
| EvEtcdUpdate (service : string) (u : Update)
| EvDial (target : string) (res : Resolver)
| EvConnClose
| EvSetUpInstance (c : LogConfig)
| EvHandle (path : string) (h : Handler)
| EvNewTicker (d : Duration)
| EvGo (g : Goroutine)
| EvListenAndServe (addr : string)
| EvGetTreeHead (id : Z) (prefix : string).

(** What [main] has deferred. *)
Inductive Deferred :=
| DeferRemovePresence (res : Resolver)
    (httpService : string) (byeHTTP : Update)
    (metricsService : string) (byeMetrics : Update)
| DeferConnClose.

(** How the serving phase ends: a termination signal reaches [awaitSignal]
    while [ListenAndServe] blocks, or [ListenAndServe] returns (its error is
    never nil). *)
Inductive Serving :=
| SignalReceived (sig : Signal)
| ListenerReturned (err : error).

(** The answers of the external collaborators.  Go's [(value, err)] results
    are sums with the error on the left; a lone [error] result is an option,
    [None] for nil. *)
Record World := {
  LogConfigFromFile : string -> error + list LogConfig;
  clientv3_New : list string -> option error;
  GRPCResolver_Update : string -> Update -> option error;
  grpc_Dial : string -> Resolver -> option error;
  SetUpInstance : LogConfig -> Duration -> error + gmap string AppHandler;
  GetTreeHead : Z -> string -> nat -> option error;
  metrics_ListenAndServe : string -> error;
  serving : Serving
}.

(** ** The process state and its monad *)

Record State := {
  trace : list Event;
  DefaultServeMux : gmap string Handler;
  deferred : list Deferred;
  MaxGetEntriesAllowed : Z;
  rpcs : nat
}.

Definition initial : State := {|
  trace := [];
  DefaultServeMux := ∅;
  deferred := [];
  MaxGetEntriesAllowed := 1000;
  rpcs := 0
|}.

Inductive Outcome (A : Type) :=
| Ok (a : A)
| Exit (code : Z)
| Panic (msg : string).

Arguments Ok {A} a.
Arguments Exit {A} code.
Arguments Panic {A} msg.

Definition M (A : Type) : Type := State -> State * Outcome A.

Definition ret {A} (a : A) : M A := fun s => (s, Ok a).

Definition bind {A B} (m : M A) (k : A -> M B) : M B :=
  fun s =>
    match m s with
    | (s', Ok a) => k a s'
    | (s', Exit c) => (s', Exit c)
    | (s', Panic msg) => (s', Panic msg)
    end.

Declare Scope go_scope.
Delimit Scope go_scope with go.
Notation "x <- m ;; k" := (bind m (fun x => k))
  (at level 100, m at next level, right associativity) : go_scope.
Notation "m ;; k" := (bind m (fun _ => k))
  (at level 100, right associativity) : go_scope.
Local Open Scope go_scope.

Definition emit (e : Event) : M unit :=
  fun s => ({| trace := trace s ++ [e];
               DefaultServeMux := DefaultServeMux s;
               deferred := deferred s;
               MaxGetEntriesAllowed := MaxGetEntriesAllowed s;
               rpcs := rpcs s |}, Ok tt).

Definition os_Exit {A} (code : Z) : M A := fun s => (s, Exit code).

Definition panic {A} (msg : string) : M A := fun s => (s, Panic msg).

(** [defer]: pushed on top, so that the latest deferred call runs first. *)
Definition defer (d : Deferred) : M unit :=
  fun s => ({| trace := trace s;
               DefaultServeMux := DefaultServeMux s;
               deferred := d :: deferred s;
               MaxGetEntriesAllowed := MaxGetEntriesAllowed s;
               rpcs := rpcs s |}, Ok tt).

Definition set_MaxGetEntriesAllowed (n : Z) : M unit :=
  fun s => ({| trace := trace s;
               DefaultServeMux := DefaultServeMux s;
               deferred := deferred s;
               MaxGetEntriesAllowed := n;
               rpcs := rpcs s |}, Ok tt).

(** [for _, x := range l { body }]. *)
Fixpoint for_range {A} (l : list A) (body : A -> M unit) : M unit :=
  match l with
  | [] => ret tt
  | x :: rest => body x ;; for_range rest body
  end.

(** ** glog *)

Definition glog_Infof (m : Msg) : M unit := emit (EvLog INFO m).
Definition glog_Warningf (m : Msg) : M unit := emit (EvLog WARNING m).
Definition glog_Flush : M unit := emit EvFlush.

(** [glog.Exitf] logs and calls [os.Exit(1)]. *)
Definition glog_Exitf {A} (m : Msg) : M A :=
  emit (EvLog FATAL m) ;; os_Exit 1.

(** [glog.V(level).Infof]: logs only when the verbosity reaches [level]. *)
Definition glog_V_Infof (f : Flags) (level : Z) (m : Msg) : M unit :=
  if (level <=? v f)%Z then glog_Infof m else ret tt.

(** ** strings.Split, for a separator of one character *)

Fixpoint split_from (sep : ascii) (cur : string) (s : string) : list string :=
  match s with
  | EmptyString => [String.rev cur]
  | String c rest =>
      if Ascii.eqb c sep
      then String.rev cur :: split_from sep EmptyString rest
      else split_from sep (String c cur) rest
  end.

Definition strings_Split (s : string) (sep : ascii) : list string :=
  split_from sep EmptyString s.

(** ** net/http, etcd, grpc, time *)

(** [http.Handle] on the [DefaultServeMux]: it panics on an empty pattern
    and on a pattern that is already registered. *)
Definition http_Handle (pattern : string) (h : Handler) : M unit :=
  emit (EvHandle pattern h) ;;
  fun s =>
    if bool_decide (pattern = "") then panic "http: invalid pattern" s
    else
      match DefaultServeMux s !! pattern with
      | Some _ => panic ("http: multiple registrations for " ++ pattern) s
      | None =>
          ({| trace := trace s;
              DefaultServeMux := <[pattern := h]> (DefaultServeMux s);
              deferred := deferred s;
              MaxGetEntriesAllowed := MaxGetEntriesAllowed s;
              rpcs := rpcs s |}, Ok tt)
      end.

(** [etcdRes.Update(ctx, service, u)]; the caller sees the error. *)
Definition Resolver_Update (w : World) (service : string) (u : Update)
  : M (option error) :=
  emit (EvEtcdUpdate service u) ;; ret (GRPCResolver_Update w service u).

Definition Dial (w : World) (target : string) (res : Resolver)
  : M (option error) :=
  emit (EvDial target res) ;; ret (grpc_Dial w target res).

(** [time.NewTicker(d)]: the ticker remembers where in the trace it was made. *)
Definition time_NewTicker (d : Duration) : M Ticker :=
  fun s =>
    (emit (EvNewTicker d) ;;
     ret {| created_at := List.length (trace s); period := d |}) s.

Definition go (g : Goroutine) : M unit := emit (EvGo g).

(** [ctfe.GetTreeHead]: the world answers the n-th call on a log. *)
Definition ctfe_GetTreeHead (w : World) (id : Z) (prefix : string)
  : M (option error) :=
  fun s =>
    ({| trace := trace s ++ [EvGetTreeHead id prefix];
        DefaultServeMux := DefaultServeMux s;
        deferred := deferred s;
        MaxGetEntriesAllowed := MaxGetEntriesAllowed s;
        rpcs := S (rpcs s) |}, Ok (GetTreeHead w id prefix (rpcs s))).

(** ** The goroutines started by [main] *)

(** [awaitSignal(doneFn)], from the moment the signal [sig] is read from the
    channel. *)
Definition awaitSignal (sig : Signal) (doneFn : M unit) : M unit :=
  glog_Warningf (MsgSignalReceived sig) ;;
  glog_Flush ;;
  doneFn.

(** The body of the refresh goroutine of log [c], run on the ticks [ticks]
    that its ticker delivers (the ticker is never stopped, so the loop never
    ends by itself: [ticks] is a finite prefix of the channel). *)
Definition refresher (f : Flags) (w : World) (c : LogConfig) (ticks : list Time)
  : M unit :=
  glog_Infof (MsgStartGetSTH (Prefix c) (LogId c)) ;;
  for_range ticks (fun t =>
    glog_V_Infof f 1 (MsgTick t (Prefix c) (LogId c)) ;;
    r <- ctfe_GetTreeHead w (LogId c) (Prefix c) ;;
    match r with
    | Some err => glog_Warningf (MsgTreeHeadFailed (Prefix c) (LogId c) err)
    | None => ret tt
    end).

(** The separate metrics server; its mux is its own, not the default one. *)
Definition metricsServer (w : World) (addr : string) : M unit :=
  emit (EvListenAndServe addr) ;;
  glog_Warningf (MsgMetricsExited (metrics_ListenAndServe w addr)).

(** ** main *)

(** The local [metricsAt]. *)
Definition metricsAt (f : Flags) : string :=
  if bool_decide (metricsEndpoint f = "") then httpEndpoint f
  else metricsEndpoint f.

Definition main (f : Flags) (w : World) : M unit :=
  (if (0 <? maxGetEntriesFlag f)%Z
   then set_MaxGetEntriesAllowed (maxGetEntriesFlag f)
   else ret tt) ;;
  cfg <- match LogConfigFromFile w (logConfigFlag f) with
         | inl err => glog_Exitf (MsgFailedReadConfig err)
         | inr cfg => ret cfg
         end ;;
  emit (EvCopyStandardLogTo WARNING) ;;
  glog_Infof MsgStarting ;;
  res <- (if (0 <? String.length (etcdServers f))%nat
          then
            let endpoints := strings_Split (etcdServers f) "," in
            emit (EvEtcdNew endpoints) ;;
            match clientv3_New w endpoints with
            | Some err => glog_Exitf (MsgEtcdConnectFailed (etcdServers f) err)
            | None =>
                let etcdRes := GRPCResolver endpoints in
                let updateHTTP := {| Op := Add; Addr := httpEndpoint f |} in
                let updateMetrics := {| Op := Add; Addr := metricsAt f |} in
                glog_Infof (MsgAnnouncing (etcdHTTPService f) updateHTTP) ;;
                Resolver_Update w (etcdHTTPService f) updateHTTP ;;
                glog_Infof (MsgAnnouncing (etcdMetricsService f) updateMetrics) ;;
                Resolver_Update w (etcdMetricsService f) updateMetrics ;;
                let byeHTTP := {| Op := Delete; Addr := httpEndpoint f |} in
                let byeMetrics := {| Op := Delete; Addr := metricsAt f |} in
                defer (DeferRemovePresence etcdRes
                         (etcdHTTPService f) byeHTTP
                         (etcdMetricsService f) byeMetrics) ;;
                ret etcdRes
            end
          else ret FixedBackendResolver) ;;
  err <- Dial w (rpcBackendFlag f) res ;;
  match err with
  | Some e => glog_Exitf (MsgDialFailed e)
  | None => ret tt
  end ;;
  defer DeferConnClose ;;
  for_range cfg (fun c =>
    emit (EvSetUpInstance c) ;;
    handlers <- match SetUpInstance w c (rpcDeadlineFlag f) with
                | inl e => glog_Exitf (MsgSetUpFailed cfg e)
                | inr handlers => ret handlers
                end ;;
    for_range (map_to_list handlers) (fun ph =>
      http_Handle (fst ph) (HApp (snd ph)))) ;;
  (if bool_decide (metricsAt f <> httpEndpoint f)
   then go (GMetricsServer (metricsAt f))
   else http_Handle "/metrics" HProm) ;;
  (if (0 <? getSTHInterval f)%Z
   then for_range cfg (fun c =>
          ticker <- time_NewTicker (getSTHInterval f) ;;
          go (GRefresher c ticker))
   else ret tt) ;;
  go GAwaitSignal ;;
  emit (EvListenAndServe (httpEndpoint f)) ;;
  match serving w with
  | SignalReceived sig => awaitSignal sig (os_Exit 1)
  | ListenerReturned err =>
      glog_Warningf (MsgServerExited err) ;;
      glog_Flush
  end.

(** ** The process around [main] *)

Definition run_deferred (w : World) (d : Deferred) : M unit :=
  match d with
  | DeferRemovePresence _ httpService byeHTTP metricsService byeMetrics =>
      glog_Infof (MsgRemoving httpService byeHTTP) ;;
      Resolver_Update w httpService byeHTTP ;;
      glog_Infof (MsgRemoving metricsService byeMetrics) ;;
      Resolver_Update w metricsService byeMetrics ;;
      ret tt
  | DeferConnClose => emit EvConnClose
  end.

(** The deferred calls of [main], latest first. *)
Definition run_defers (w : World) : M unit :=
  fun s => for_range (deferred s) (run_deferred w) s.

(** The whole run: final state and exit status.  [os.Exit] ends the process
    at once; when [main] returns the deferred calls run and the status is 0;
    a panic runs them too and the runtime exits with status 2. *)
Definition process (f : Flags) (w : World) : State * Z :=
  match main f w initial with
  | (s, Exit code) => (s, code)
  | (s, Ok _) =>
      match run_defers w s with
      | (s', Exit code) => (s', code)
      | (s', _) => (s', 0)
      end
  | (s, Panic _) =>
      match run_defers w s with
      | (s', Exit code) => (s', code)
      | (s', _) => (s', 2)
      end
  end.

Definition run_trace (f : Flags) (w : World) : list Event :=
  trace (fst (process f w)).

Definition exit_status (f : Flags) (w : World) : Z := snd (process f w).

Definition final_mux (f : Flags) (w : World) : gmap string Handler :=
  DefaultServeMux (fst (process f w)).

(** ** Reading a trace *)

(** The dynamic (etcd-backed) variant is chosen by the length of the flag [etcd_servers] being positive. *)
Definition dynamic (f : Flags) : bool := (0 <? String.length (etcdServers f))%nat.

Definition is_announce (e : Event) : bool :=
  match e with
  | EvEtcdUpdate _ {| Op := Add |} => true
  | _ => false
  end.

Definition is_retract (e : Event) : bool :=
  match e with
  | EvEtcdUpdate _ {| Op := Delete |} => true
  | _ => false
  end.

Definition is_conn_close (e : Event) : bool :=
  match e with EvConnClose => true | _ => false end.

(** Any contact with the directory. *)
Definition is_etcd (e : Event) : bool :=
  match e with
  | EvEtcdNew _ | EvEtcdUpdate _ _ => true
  | _ => false
  end.

(** The start of an HTTP listener: the main one, or the goroutine of the
    separate metrics server. *)
Definition is_listener_start (e : Event) : bool :=
  match e with
  | EvListenAndServe _ | EvGo (GMetricsServer _) => true
  | _ => false
  end.

Definition is_setup (e : Event) : bool :=
  match e with EvSetUpInstance _ => true | _ => false end.

(** Registration of a log instance: its set-up call, or the installation of
    one of its handlers. *)
Definition is_registration (e : Event) : bool :=
  match e with
  | EvSetUpInstance _ | EvHandle _ (HApp _) => true
  | _ => false
  end.

Definition is_refresh_start (e : Event) : bool :=
  match e with
  | EvNewTicker _ | EvGo (GRefresher _ _) => true
  | _ => false
  end.

Definition is_fetch (e : Event) : bool :=
  match e with EvGetTreeHead _ _ => true | _ => false end.

(** The error a log line reports, if any. *)
Definition msg_error (m : Msg) : option error :=
  match m with
  | MsgFailedReadConfig err | MsgEtcdConnectFailed _ err | MsgDialFailed err
  | MsgSetUpFailed _ err | MsgMetricsExited err | MsgTreeHeadFailed _ _ err
  | MsgServerExited err => Some err
  | _ => None
  end.

Definition logs_error (err : error) (tr : list Event) : Prop :=
  exists sev m, In (EvLog sev m) tr /\ msg_error m = Some err.

(** The same, as a test. *)
Definition reports (err : error) (e : Event) : bool :=
  match e with
  | EvLog _ m =>
      match msg_error m with
      | Some err' => String.eqb err' err
      | None => false
      end
  | _ => false
  end.

(** The step of [main] an event belongs to. *)
Definition phase (e : Event) : nat :=
  match e with
  | EvLog _ (MsgFailedReadConfig _) | EvLog _ MsgStarting
  | EvCopyStandardLogTo _ => 0
  | EvEtcdNew _ | EvLog _ (MsgEtcdConnectFailed _ _)
  | EvLog _ (MsgAnnouncing _ _) | EvEtcdUpdate _ {| Op := Add |} => 1
  | EvDial _ _ | EvLog _ (MsgDialFailed _) => 2
  | EvSetUpInstance _ | EvHandle _ (HApp _) | EvLog _ (MsgSetUpFailed _ _) => 3
  | EvGo (GMetricsServer _) | EvHandle _ HProm => 4
  | EvNewTicker _ | EvGo (GRefresher _ _) => 5
  | EvGo GAwaitSignal | EvListenAndServe _ | EvLog _ (MsgServerExited _)
  | EvLog _ (MsgSignalReceived _) | EvFlush => 6
  | EvConnClose => 7
  | EvLog _ (MsgRemoving _ _) | EvEtcdUpdate _ {| Op := Delete |} => 8
  | _ => 9
  end.

(** ** The pieces of [main], named *)

Definition etcd_endpoints (f : Flags) : list string :=
  strings_Split (etcdServers f) ",".

Definition resolver_of (f : Flags) : Resolver :=
  if dynamic f then GRPCResolver (etcd_endpoints f) else FixedBackendResolver.

Definition updateHTTP (f : Flags) : Update := {| Op := Add; Addr := httpEndpoint f |}.
Definition updateMetrics (f : Flags) : Update := {| Op := Add; Addr := metricsAt f |}.
Definition byeHTTP (f : Flags) : Update := {| Op := Delete; Addr := httpEndpoint f |}.
Definition byeMetrics (f : Flags) : Update := {| Op := Delete; Addr := metricsAt f |}.

Definition tr_announce (f : Flags) : list Event :=
  [ EvEtcdNew (etcd_endpoints f);
    EvLog INFO (MsgAnnouncing (etcdHTTPService f) (updateHTTP f));
    EvEtcdUpdate (etcdHTTPService f) (updateHTTP f);
    EvLog INFO (MsgAnnouncing (etcdMetricsService f) (updateMetrics f));
    EvEtcdUpdate (etcdMetricsService f) (updateMetrics f) ].

Definition tr_retract (f : Flags) : list Event :=
  [ EvLog INFO (MsgRemoving (etcdHTTPService f) (byeHTTP f));
    EvEtcdUpdate (etcdHTTPService f) (byeHTTP f);
    EvLog INFO (MsgRemoving (etcdMetricsService f) (byeMetrics f));
    EvEtcdUpdate (etcdMetricsService f) (byeMetrics f) ].

(** The trace up to the dial, when nothing failed before it. *)
Definition tr_pre (f : Flags) : list Event :=
  [EvCopyStandardLogTo WARNING; EvLog INFO MsgStarting]
  ++ (if dynamic f then tr_announce f else [])
  ++ [EvDial (rpcBackendFlag f) (resolver_of f)].

Definition ds_pre (f : Flags) : list Deferred :=
  if dynamic f
  then [DeferRemovePresence (resolver_of f)
          (etcdHTTPService f) (byeHTTP f) (etcdMetricsService f) (byeMetrics f)]
  else [].

(** A state in which no handler is installed and no RPC was made. *)
Definition st (f : Flags) (tr : list Event) (ds : list Deferred) : State := {|
  trace := tr;
  DefaultServeMux := ∅;
  deferred := ds;
  MaxGetEntriesAllowed :=
    if (0 <? maxGetEntriesFlag f)%Z then maxGetEntriesFlag f else 1000;
  rpcs := 0
|}.

(** The loop of lines 122-130. *)
Definition registerLoop (f : Flags) (w : World) (cfg cs : list LogConfig) : M unit :=
  for_range cs (fun c =>
    emit (EvSetUpInstance c) ;;
    handlers <- match SetUpInstance w c (rpcDeadlineFlag f) with
                | inl e => glog_Exitf (MsgSetUpFailed cfg e)
                | inr handlers => ret handlers
                end ;;
    for_range (map_to_list handlers) (fun ph =>
      http_Handle (fst ph) (HApp (snd ph)))).

(** The loop of lines 148-159. *)
Definition refreshLoop (f : Flags) (cs : list LogConfig) : M unit :=
  for_range cs (fun c =>
    ticker <- time_NewTicker (getSTHInterval f) ;;
    go (GRefresher c ticker)).

(** Lines 131-169. *)
Definition main_tail (f : Flags) (w : World) (cfg : list LogConfig) : M unit :=
  (if bool_decide (metricsAt f <> httpEndpoint f)
   then go (GMetricsServer (metricsAt f))
   else http_Handle "/metrics" HProm) ;;
  (if (0 <? getSTHInterval f)%Z then refreshLoop f cfg else ret tt) ;;
  go GAwaitSignal ;;
  emit (EvListenAndServe (httpEndpoint f)) ;;
  match serving w with
  | SignalReceived sig => awaitSignal sig (os_Exit 1)
  | ListenerReturned err =>
      glog_Warningf (MsgServerExited err) ;;
      glog_Flush
  end.

(** What [refreshLoop] appends when the trace has [n] events already. *)
Fixpoint refresh_events (n : nat) (d : Duration) (cs : list LogConfig) : list Event :=
  match cs with
  | [] => []
  | c :: rest =>
      EvNewTicker d :: EvGo (GRefresher c {| created_at := n; period := d |})
      :: refresh_events (S (S n)) d rest
  end.

(** State updates, for describing the result of a run. *)
Definition add_events (l : list Event) (s : State) : State := {|
  trace := trace s ++ l;
  DefaultServeMux := DefaultServeMux s;
  deferred := deferred s;
  MaxGetEntriesAllowed := MaxGetEntriesAllowed s;
  rpcs := rpcs s
|}.

Definition set_mux (m : gmap string Handler) (s : State) : State := {|
  trace := trace s;
  DefaultServeMux := m;
  deferred := deferred s;
  MaxGetEntriesAllowed := MaxGetEntriesAllowed s;
  rpcs := rpcs s
|}.

Definition tr_metrics (f : Flags) : list Event :=
  if bool_decide (metricsAt f <> httpEndpoint f)
  then [EvGo (GMetricsServer (metricsAt f))]
  else [EvHandle "/metrics" HProm].

Definition tr_refresh (f : Flags) (n : nat) (cfg : list LogConfig) : list Event :=
  if (0 <? getSTHInterval f)%Z then refresh_events n (getSTHInterval f) cfg else [].

Definition tr_serve (f : Flags) (w : World) : list Event :=
  [EvGo GAwaitSignal; EvListenAndServe (httpEndpoint f)]
  ++ match serving w with
     | SignalReceived sig => [EvLog WARNING (MsgSignalReceived sig); EvFlush]
     | ListenerReturned err => [EvLog WARNING (MsgServerExited err); EvFlush]
     end.

Definition serve_outcome (w : World) : Outcome unit :=
  match serving w with
  | SignalReceived _ => Exit 1
  | ListenerReturned _ => Ok tt
  end.

(** What the deferred calls append when [main] got past the dial. *)
Definition tr_defers (f : Flags) : list Event :=
  EvConnClose :: (if dynamic f then tr_retract f else []).

(** The body of the loop of lines 152-157, for the tick [t]. *)
Definition refresh_tick (f : Flags) (w : World) (c : LogConfig) (t : Time) : M unit :=
  glog_V_Infof f 1 (MsgTick t (Prefix c) (LogId c)) ;;
  r <- ctfe_GetTreeHead w (LogId c) (Prefix c) ;;
  match r with
  | Some err => glog_Warningf (MsgTreeHeadFailed (Prefix c) (LogId c) err)
  | None => ret tt
  end.

(** The trace of the refresh goroutine of log [c] after the ticks [ticks]. *)
Definition refresher_trace (f : Flags) (w : World) (c : LogConfig)
    (ticks : list Time) : list Event :=
  trace (fst (refresher f w c ticks initial)).

(** [time.NewTicker(d)] delivers its ticks one period apart, the first one a
    full period after the ticker was made: tick number [n] (from 0) of the
    ticker [tk] is sent at [tick_time clock tk n], where [clock i] is the time
    of the [i]-th event of the trace of [main]. *)
Definition tick_time (clock : nat -> Time) (tk : Ticker) (n : nat) : Time :=
  (clock (created_at tk) + Z.of_nat (S n) * period tk)%Z.

(** Modelled from the spec: [util.FixedBackendResolver], of the package
    [trillian/util], which is not among the sources.  The specification says
    of the static variant that the endpoint set "is the fixed, comma-separated
    address list from configuration" and that "announce/retract are no-ops",
    and of [resolve] that it produces a set in which "at least one endpoint is
    known": resolving a target contacts nobody and gives the pieces of the
    target between its commas; the empty target names no endpoint and gives
    no set. *)
Definition FixedBackendResolver_Resolve (target : string) : option (list string) :=
  if bool_decide (target = "") then None else Some (strings_Split target ",").

(** Modelled from the spec: the endpoint set that the connection of a dial is
    built from ("a single shared, reusable channel to the backend cluster,
    derived from the current EndpointSet"): the balancer of [grpc.Dial] resolves the target
    of the dial with the resolver it was given.  Only the fixed resolver is
    modelled; what the directory holds is not part of the program. *)
Definition dial_endpoints (e : Event) : option (list string) :=
  match e with
  | EvDial target FixedBackendResolver => FixedBackendResolver_Resolve target
  | _ => None
  end.

(** The character [c] occurs in [s]. *)
Fixpoint has_char (c : ascii) (s : string) : bool :=
  match s with
  | EmptyString => false
  | String c' rest => Ascii.eqb c' c || has_char c rest
  end.

(** ** The shapes a run can take *)

(** [ev] is the trace of a registration loop that set up every log of [cfg],
    [hs] the handler maps it was given, in the order of [cfg]. *)
Definition registered (f : Flags) (w : World) (cfg : list LogConfig)
    (ev : list Event) (hs : list (gmap string AppHandler)) : Prop :=
  Forall (fun e => phase e = 3%nat) ev
  /\ List.filter is_setup ev = List.map EvSetUpInstance cfg
  /\ Forall2 (fun c h => SetUpInstance w c (rpcDeadlineFlag f) = inr h) cfg hs.

(** The router holds the entries of the handler maps [hs], and [/metrics]
    when the metrics share the main listener; nothing else. *)
Definition routes (f : Flags) (hs : list (gmap string AppHandler))
    (mux : gmap string Handler) : Prop :=
  forall p h,
    mux !! p = Some h <->
    (exists hc a, hc ∈ hs /\ hc !! p = Some a /\ h = HApp a)
    \/ (metricsAt f = httpEndpoint f /\ p = "/metrics" /\ h = HProm).

(** The trace from the end of registration to the end of serving. *)
Definition tr_after (f : Flags) (w : World) (cfg : list LogConfig) (n : nat)
  : list Event :=
  tr_metrics f ++ tr_refresh f (S n) cfg ++ tr_serve f w.

Inductive Run (f : Flags) (w : World)
  : list Event -> gmap string Handler -> Z -> Prop :=
| RunConfigFailed err :
    LogConfigFromFile w (logConfigFlag f) = inl err ->
    Run f w [EvLog FATAL (MsgFailedReadConfig err)] ∅ 1
| RunEtcdFailed cfg err :
    LogConfigFromFile w (logConfigFlag f) = inr cfg ->
    dynamic f = true ->
    clientv3_New w (etcd_endpoints f) = Some err ->
    Run f w [EvCopyStandardLogTo WARNING; EvLog INFO MsgStarting;
             EvEtcdNew (etcd_endpoints f);
             EvLog FATAL (MsgEtcdConnectFailed (etcdServers f) err)] ∅ 1
| RunDialFailed cfg e :
    LogConfigFromFile w (logConfigFlag f) = inr cfg ->
    grpc_Dial w (rpcBackendFlag f) (resolver_of f) = Some e ->
    Run f w (tr_pre f ++ [EvLog FATAL (MsgDialFailed e)]) ∅ 1
| RunSetUpFailed cfg ev mux c e :
    LogConfigFromFile w (logConfigFlag f) = inr cfg ->
    Forall (fun e => phase e = 3%nat) ev ->
    c ∈ cfg ->
    SetUpInstance w c (rpcDeadlineFlag f) = inl e ->
    Run f w (tr_pre f ++ ev) mux 1
| RunPanicked cfg ev evm mux :
    LogConfigFromFile w (logConfigFlag f) = inr cfg ->
    Forall (fun e => phase e = 3%nat) ev ->
    evm = [] \/ evm = [EvHandle "/metrics" HProm] ->
    Run f w (tr_pre f ++ ev ++ evm ++ tr_defers f) mux 2
| RunSignalled cfg ev hs mux sig :
    LogConfigFromFile w (logConfigFlag f) = inr cfg ->
    registered f w cfg ev hs ->
    routes f hs mux ->
    serving w = SignalReceived sig ->
    Run f w (tr_pre f ++ ev ++ tr_after f w cfg (List.length (tr_pre f ++ ev))) mux 1
| RunReturned cfg ev hs mux err :
    LogConfigFromFile w (logConfigFlag f) = inr cfg ->
    registered f w cfg ev hs ->
    routes f hs mux ->
    serving w = ListenerReturned err ->
    Run f w (tr_pre f ++ ev ++ tr_after f w cfg (List.length (tr_pre f ++ ev))
             ++ tr_defers f) mux 0.

(** The order of the steps of [main] on events. *)
Definition phase_le (a b : Event) : Prop := (phase a <= phase b)%nat.

(** A stretch of trace whose events are in step order, between two steps. *)
Definition seg (lo hi : nat) (l : list Event) : Prop :=
  StronglySorted phase_le l
  /\ Forall (fun e => (lo <= phase e <= hi)%nat) l.

Definition is_dial (e : Event) : bool :=
  match e with EvDial _ _ => true | _ => false end.

(** [main] got as far as calling [ListenAndServe] on the main server. *)
Definition is_listen (e : Event) : bool :=
  match e with EvListenAndServe _ => true | _ => false end.

Definition serves (f : Flags) (w : World) : bool :=
  existsb is_listen (run_trace f w).

(** ** Worlds and flags to run the program on *)

Definition with_serving (sv : Serving) (w : World) : World := {|
  LogConfigFromFile := LogConfigFromFile w;
  clientv3_New := clientv3_New w;
  GRPCResolver_Update := GRPCResolver_Update w;
  grpc_Dial := grpc_Dial w;
  SetUpInstance := SetUpInstance w;
  GetTreeHead := GetTreeHead w;
  metrics_ListenAndServe := metrics_ListenAndServe w;
  serving := sv
|}.

Definition with_Update (upd : string -> Update -> option error) (w : World)
  : World := {|
  LogConfigFromFile := LogConfigFromFile w;
  clientv3_New := clientv3_New w;
  GRPCResolver_Update := upd;
  grpc_Dial := grpc_Dial w;
  SetUpInstance := SetUpInstance w;
  GetTreeHead := GetTreeHead w;
  metrics_ListenAndServe := metrics_ListenAndServe w;
  serving := serving w
|}.

Definition with_SetUpInstance
    (su : LogConfig -> Duration -> error + gmap string AppHandler) (w : World)
  : World := {|
  LogConfigFromFile := LogConfigFromFile w;
  clientv3_New := clientv3_New w;
  GRPCResolver_Update := GRPCResolver_Update w;
  grpc_Dial := grpc_Dial w;
  SetUpInstance := su;
  GetTreeHead := GetTreeHead w;
  metrics_ListenAndServe := metrics_ListenAndServe w;
  serving := serving w
|}.

Definition logA : LogConfig := {| LogId := 1; Prefix := "a" |}.
Definition logB : LogConfig := {| LogId := 2; Prefix := "b" |}.

Definition handlers_of (c : LogConfig) : gmap string AppHandler :=
  {[ "/" ++ Prefix c ++ "/ct/v1/get-sth" := {| Name := "GetSTH"; Method := "GET" |};
     "/" ++ Prefix c ++ "/ct/v1/add-chain" := {| Name := "AddChain"; Method := "POST" |} ]}.

(** Two logs, every collaborator succeeds, and the main listener returns. *)
Definition world_ok : World := {|
  LogConfigFromFile := fun _ => inr [logA; logB];
  clientv3_New := fun _ => None;
  GRPCResolver_Update := fun _ _ => None;
  grpc_Dial := fun _ _ => None;
  SetUpInstance := fun c _ => inr (handlers_of c);
  GetTreeHead := fun _ _ _ => None;
  metrics_ListenAndServe := fun _ => "http: Server closed";
  serving := ListenerReturned "listen tcp: address already in use"
|}.

(** The same, but a SIGTERM arrives while the server is serving. *)
Definition world_sigterm : World := with_serving (SignalReceived SIGTERM) world_ok.

(** The same as [world_ok], but every directory update fails. *)
Definition world_etcd_down : World :=
  with_Update (fun _ _ => Some "etcdserver: request timed out") world_ok.

(** The same as [world_ok], but setting up the second log fails. *)
Definition world_logB_fails : World :=
  with_SetUpInstance
    (fun c _ => if (LogId c =? 2)%Z then inl "bad config" else inr (handlers_of c))
    world_ok.

(** The same as [world_ok], but both logs come with the handler paths of the
    first one. *)
Definition world_clash : World :=
  with_SetUpInstance (fun _ _ => inr (handlers_of logA)) world_ok.

(** Every third fetch of a tree head fails. *)
Definition world_flaky_fetch : World := {|
  LogConfigFromFile := LogConfigFromFile world_ok;
  clientv3_New := clientv3_New world_ok;
  GRPCResolver_Update := GRPCResolver_Update world_ok;
  grpc_Dial := grpc_Dial world_ok;
  SetUpInstance := SetUpInstance world_ok;
  GetTreeHead := fun _ _ n => if (n mod 3 =? 1)%nat then Some "deadline exceeded" else None;
  metrics_ListenAndServe := metrics_ListenAndServe world_ok;
  serving := serving world_ok
|}.

Definition flags_static : Flags := {|
  httpEndpoint := "localhost:6962";
  metricsEndpoint := "localhost:6963";
  rpcBackendFlag := "h1:80,h2:80";
  rpcDeadlineFlag := 10 * 1000000000;
  getSTHInterval := 180 * 1000000000;
  logConfigFlag := "logs.cfg";
  maxGetEntriesFlag := 0;
  etcdServers := "";
  etcdHTTPService := "trillian-ctfe-http";
  etcdMetricsService := "trillian-ctfe-metrics-http";
  v := 0
|}.

Definition flags_dynamic : Flags := {|
  httpEndpoint := "localhost:6962";
  metricsEndpoint := "localhost:6963";
  rpcBackendFlag := "trillian-log";
  rpcDeadlineFlag := 10 * 1000000000;
  getSTHInterval := 180 * 1000000000;
  logConfigFlag := "logs.cfg";
  maxGetEntriesFlag := 0;
  etcdServers := "etcd1:2379,etcd2:2379";
  etcdHTTPService := "trillian-ctfe-http";
  etcdMetricsService := "trillian-ctfe-metrics-http";
  v := 0
|}.

(** ** Sentences of the specification that the program does not satisfy

    Each is written here the way the specification words it, to be tested
    on a concrete run. *)

(** A termination signal while serving gives exit status zero. *)
Definition spec_signal_exits_zero (f : Flags) (w : World) : Prop :=
  serves f w = true ->
  (exists sig, serving w = SignalReceived sig) ->
  exit_status f w = 0%Z.

(** After a termination signal while serving, in the dynamic variant, a
    retraction is attempted and later the backend connection is closed. *)
Definition spec_retract_before_close (f : Flags) (w : World) : Prop :=
  dynamic f = true ->
  serves f w = true ->
  (exists sig, serving w = SignalReceived sig) ->
  exists i j r,
    run_trace f w !! i = Some r /\ is_retract r = true
    /\ run_trace f w !! j = Some EvConnClose /\ (i < j)%nat.

(** Every announcement comes after the start of a listener. *)
Definition spec_announce_after_listen (f : Flags) (w : World) : Prop :=
  forall i a,
    run_trace f w !! i = Some a -> is_announce a = true ->
    exists j l,
      (j < i)%nat /\ run_trace f w !! j = Some l /\ is_listener_start l = true.

(** A retraction that fails is logged. *)
Definition spec_retract_failure_logged (f : Flags) (w : World) : Prop :=
  forall i service u err,
    run_trace f w !! i = Some (EvEtcdUpdate service u) -> Op u = Delete ->
    GRPCResolver_Update w service u = Some err ->
    logs_error err (run_trace f w).

(** ** More ways to read a run *)

Definition is_metrics_go (e : Event) : bool :=
  match e with EvGo (GMetricsServer _) => true | _ => false end.

Definition is_flush (e : Event) : bool :=
  match e with EvFlush => true | _ => false end.

Definition is_log (e : Event) : bool :=
  match e with EvLog _ _ => true | _ => false end.

Definition is_etcd_new (e : Event) : bool :=
  match e with EvEtcdNew _ => true | _ => false end.

(** The run gets past the configuration and the directory client, as far as
    [grpc.Dial]. *)
Definition reaches_dial (f : Flags) (w : World) : bool :=
  match LogConfigFromFile w (logConfigFlag f) with
  | inl _ => false
  | inr _ =>
      match (if dynamic f then clientv3_New w (etcd_endpoints f) else None) with
      | Some _ => false
      | None => true
      end
  end.

(** The retraction that undoes an announcement: same service, same address. *)
Definition retraction_of (e : Event) : Event :=
  match e with
  | EvEtcdUpdate service u => EvEtcdUpdate service {| Op := Delete; Addr := Addr u |}
  | _ => e
  end.

(** How many of the fetches number [start], ..., [start + n - 1] of the log
    [c] fail. *)
Definition failed_fetches (w : World) (c : LogConfig) (start n : nat) : nat :=
  List.length
    (List.filter
       (fun k => match GetTreeHead w (LogId c) (Prefix c) k with
                 | Some _ => true
                 | None => false
                 end)
       (seq start n)).

(** The same as [world_ok], but the directory cannot be reached. *)
Definition world_no_etcd : World := {|
  LogConfigFromFile := LogConfigFromFile world_ok;
  clientv3_New := fun _ => Some "context deadline exceeded";
  GRPCResolver_Update := GRPCResolver_Update world_ok;
  grpc_Dial := grpc_Dial world_ok;
  SetUpInstance := SetUpInstance world_ok;
  GetTreeHead := GetTreeHead world_ok;
  metrics_ListenAndServe := metrics_ListenAndServe world_ok;
  serving := serving world_ok
|}.

(** The same as [world_ok], but the backend cannot be dialled. *)
Definition world_no_backend : World := {|
  LogConfigFromFile := LogConfigFromFile world_ok;
  clientv3_New := clientv3_New world_ok;
  GRPCResolver_Update := GRPCResolver_Update world_ok;
  grpc_Dial := fun _ _ => Some "context deadline exceeded";
  SetUpInstance := SetUpInstance world_ok;
  GetTreeHead := GetTreeHead world_ok;
  metrics_ListenAndServe := metrics_ListenAndServe world_ok;
  serving := serving world_ok
|}.

(** The flags of [flags_dynamic], with the metrics on the main listener and a
    larger bound on get-entries. *)
Definition flags_shared_metrics : Flags := {|
  httpEndpoint := "localhost:6962";
  metricsEndpoint := "";
  rpcBackendFlag := "trillian-log";
  rpcDeadlineFlag := 10 * 1000000000;
  getSTHInterval := 0;
  logConfigFlag := "logs.cfg";
  maxGetEntriesFlag := 50;
  etcdServers := "etcd1:2379,etcd2:2379";
  etcdHTTPService := "trillian-ctfe-http";
  etcdMetricsService := "trillian-ctfe-metrics-http";
  v := 1
|}.

Definition is_await (e : Event) : bool :=
  match e with EvGo GAwaitSignal => true | _ => false end.


(** * Properties *)

Lemma main_initial (f : Flags) (w : World) :
  main f w initial =
  match LogConfigFromFile w (logConfigFlag f) with
  | inl err => (st f [EvLog FATAL (MsgFailedReadConfig err)] [], Exit 1)
  | inr cfg =>
      match (if dynamic f then clientv3_New w (etcd_endpoints f) else None) with
      | Some err =>
          (st f [EvCopyStandardLogTo WARNING; EvLog INFO MsgStarting;
                 EvEtcdNew (etcd_endpoints f);
                 EvLog FATAL (MsgEtcdConnectFailed (etcdServers f) err)] [],
           Exit 1)
      | None =>
          match grpc_Dial w (rpcBackendFlag f) (resolver_of f) with
          | Some e =>
              (st f (tr_pre f ++ [EvLog FATAL (MsgDialFailed e)]) (ds_pre f), Exit 1)
          | None =>
              (registerLoop f w cfg cfg ;; main_tail f w cfg)
                (st f (tr_pre f) (DeferConnClose :: ds_pre f))
          end
      end
  end.
Proof.
  unfold main, tr_pre, ds_pre, st, tr_announce, resolver_of, dynamic.
  destruct (0 <? maxGetEntriesFlag f)%Z;
  (destruct (LogConfigFromFile w (logConfigFlag f)) as [err|cfg]; [reflexivity|]);
  (destruct (0 <? String.length (etcdServers f))%nat;
   [destruct (clientv3_New w (etcd_endpoints f)) eqn:E;
    unfold bind at 1 2 3 4; cbn; unfold etcd_endpoints in E |- *; rewrite ?E; cbn
   | cbn ]).
  all: try reflexivity.
  all: destruct (grpc_Dial w (rpcBackendFlag f) _); reflexivity.
Qed.

(** ** Some runs *)

Example split_backends : strings_Split "h1:80,h2:80" "," = ["h1:80"; "h2:80"].
Proof. reflexivity. Qed.

Example split_empty : strings_Split "" "," = [""].
Proof. reflexivity. Qed.

Example split_trailing_comma : strings_Split "a,,b," "," = ["a"; ""; "b"; ""].
Proof. reflexivity. Qed.

(** The second log cannot be set up: the first one is half registered, no
    listener starts, and the status is 1. *)
Example run_setup_failure :
  run_trace flags_static world_logB_fails =
    [ EvCopyStandardLogTo WARNING; EvLog INFO MsgStarting;
      EvDial "h1:80,h2:80" FixedBackendResolver;
      EvSetUpInstance logA;
      EvHandle "/a/ct/v1/get-sth" (HApp {| Name := "GetSTH"; Method := "GET" |});
      EvHandle "/a/ct/v1/add-chain" (HApp {| Name := "AddChain"; Method := "POST" |});
      EvSetUpInstance logB;
      EvLog FATAL (MsgSetUpFailed [logA; logB] "bad config") ]
  /\ exit_status flags_static world_logB_fails = 1%Z.
Proof. vm_compute. split; reflexivity. Qed.

(** A SIGTERM while serving, dynamic variant: the run ends in [awaitSignal]. *)
Example run_sigterm :
  drop 19 (run_trace flags_dynamic world_sigterm) =
    [ EvGo GAwaitSignal; EvListenAndServe "localhost:6962";
      EvLog WARNING (MsgSignalReceived SIGTERM); EvFlush ]
  /\ exit_status flags_dynamic world_sigterm = 1%Z.
Proof. vm_compute. split; reflexivity. Qed.

(** The listener returns, dynamic variant, and the directory is down: the
    deferred calls run, and the status is 0. *)
Example run_listener_returns :
  drop 19 (run_trace flags_dynamic world_etcd_down) =
    [ EvGo GAwaitSignal; EvListenAndServe "localhost:6962";
      EvLog WARNING (MsgServerExited "listen tcp: address already in use");
      EvFlush; EvConnClose;
      EvLog INFO (MsgRemoving "trillian-ctfe-http"
                    {| Op := Delete; Addr := "localhost:6962" |});
      EvEtcdUpdate "trillian-ctfe-http" {| Op := Delete; Addr := "localhost:6962" |};
      EvLog INFO (MsgRemoving "trillian-ctfe-metrics-http"
                    {| Op := Delete; Addr := "localhost:6963" |});
      EvEtcdUpdate "trillian-ctfe-metrics-http"
        {| Op := Delete; Addr := "localhost:6963" |} ]
  /\ exit_status flags_dynamic world_etcd_down = 0%Z.
Proof. vm_compute. split; reflexivity. Qed.

(** Two logs with the same paths: [http.Handle] panics at the first path of
    the second log; the deferred calls run and the status is 2. *)
Example run_path_clash :
  drop 7 (run_trace flags_static world_clash) =
    [ EvHandle "/a/ct/v1/get-sth" (HApp {| Name := "GetSTH"; Method := "GET" |});
      EvConnClose ]
  /\ exit_status flags_static world_clash = 2%Z.
Proof. vm_compute. split; reflexivity. Qed.

(** Three ticks, the second fetch fails: a warning, and the third fetch is
    made all the same. *)
Example run_refresher_flaky :
  refresher_trace flags_static world_flaky_fetch logA [180; 360; 540]%Z =
    [ EvLog INFO (MsgStartGetSTH "a" 1);
      EvGetTreeHead 1 "a";
      EvGetTreeHead 1 "a";
      EvLog WARNING (MsgTreeHeadFailed "a" 1 "deadline exceeded");
      EvGetTreeHead 1 "a" ].
Proof. vm_compute. reflexivity. Qed.

(** ** Stepping lemmas *)

Lemma add_events_nil (s : State) : add_events [] s = s.
Proof. destruct s; unfold add_events; cbn. by rewrite app_nil_r. Qed.

Lemma add_events_app (l1 l2 : list Event) (s : State) :
  add_events l2 (add_events l1 s) = add_events (l1 ++ l2) s.
Proof. unfold add_events; cbn. by rewrite app_assoc. Qed.

Lemma add_events_set_mux (l : list Event) (m : gmap string Handler) (s : State) :
  add_events l (set_mux m s) = set_mux m (add_events l s).
Proof. reflexivity. Qed.

Lemma emit_run (e : Event) (s : State) : emit e s = (add_events [e] s, Ok tt).
Proof. reflexivity. Qed.

Lemma bind_run {A B} (m : M A) (k : A -> M B) (s : State) :
  bind m k s =
  match m s with
  | (s', Ok a) => k a s'
  | (s', Exit c) => (s', Exit c)
  | (s', Panic msg) => (s', Panic msg)
  end.
Proof. reflexivity. Qed.

Lemma ret_bind {A B} (a : A) (k : A -> M B) (s : State) :
  bind (ret a) k s = k a s.
Proof. reflexivity. Qed.

Lemma http_Handle_run (p : string) (h : Handler) (s : State) :
  http_Handle p h s =
  if bool_decide (p = "") then (add_events [EvHandle p h] s, Panic "http: invalid pattern")
  else match DefaultServeMux s !! p with
       | Some _ =>
           (add_events [EvHandle p h] s, Panic ("http: multiple registrations for " ++ p))
       | None =>
           (set_mux (<[p := h]> (DefaultServeMux s)) (add_events [EvHandle p h] s), Ok tt)
       end.
Proof.
  unfold http_Handle. rewrite bind_run, emit_run.
  destruct (bool_decide (p = "")); [reflexivity|].
  cbn. destruct (DefaultServeMux s !! p); reflexivity.
Qed.

Lemma refreshLoop_run (f : Flags) (cs : list LogConfig) (s : State) :
  refreshLoop f cs s =
  (add_events (refresh_events (List.length (trace s)) (getSTHInterval f) cs) s, Ok tt).
Proof.
  revert s. induction cs as [|c cs IH]; intros s.
  - cbn. by rewrite add_events_nil.
  - unfold refreshLoop in *. cbn [for_range]. rewrite bind_run.
    unfold time_NewTicker, go. rewrite !bind_run, !emit_run. cbn [ret].
    rewrite emit_run, IH, !add_events_app. cbn [trace add_events].
    rewrite !length_app. cbn [List.length].
    replace (List.length (trace s) + (1 + 1))%nat with (S (S (List.length (trace s)))) by lia.
    reflexivity.
Qed.

Ltac norm_state :=
  repeat (rewrite bind_run || rewrite emit_run);
  unfold add_events, set_mux; cbn;
  repeat (rewrite <- app_assoc; cbn);
  reflexivity.

Lemma main_tail_run (f : Flags) (w : World) (cfg : list LogConfig) (s : State) :
  main_tail f w cfg s =
  let l := (tr_metrics f ++ tr_refresh f (S (List.length (trace s))) cfg ++ tr_serve f w)%list in
  if bool_decide (metricsAt f <> httpEndpoint f)
  then (add_events l s, serve_outcome w)
  else match DefaultServeMux s !! "/metrics" with
       | Some _ =>
           (add_events [EvHandle "/metrics" HProm] s,
            Panic ("http: multiple registrations for " ++ "/metrics"))
       | None =>
           (set_mux (<["/metrics" := HProm]> (DefaultServeMux s)) (add_events l s),
            serve_outcome w)
       end.
Proof.
  unfold main_tail, tr_metrics, tr_refresh, tr_serve, serve_outcome, awaitSignal,
    glog_Warningf, glog_Flush, go, os_Exit.
  rewrite bind_run.
  destruct (bool_decide (metricsAt f <> httpEndpoint f)).
  - rewrite emit_run, bind_run.
    destruct (0 <? getSTHInterval f)%Z.
    + rewrite refreshLoop_run. cbn [trace add_events].
      rewrite !bind_run, !emit_run, !add_events_app, length_app.
      cbn [List.length]. rewrite Nat.add_1_r.
      destruct (serving w); rewrite !bind_run, !emit_run, ?add_events_app;
        norm_state.
    + cbn [ret]. rewrite !bind_run, !emit_run, !add_events_app.
      destruct (serving w); rewrite !bind_run, !emit_run, ?add_events_app;
        norm_state.
  - rewrite http_Handle_run. cbn [bool_decide decide_rel].
    replace (bool_decide ("/metrics" = "")) with false by reflexivity.
    destruct (DefaultServeMux s !! "/metrics"); [reflexivity|].
    rewrite bind_run.
    destruct (0 <? getSTHInterval f)%Z.
    + rewrite refreshLoop_run. cbn [trace add_events set_mux].
      rewrite !bind_run, !emit_run, !add_events_set_mux, !add_events_app, length_app.
      cbn [List.length]. rewrite Nat.add_1_r.
      destruct (serving w);
        rewrite !bind_run, !emit_run, ?add_events_set_mux, ?add_events_app;
        norm_state.
    + cbn [ret]. rewrite !bind_run, !emit_run, !add_events_set_mux, !add_events_app.
      destruct (serving w);
        rewrite !bind_run, !emit_run, ?add_events_set_mux, ?add_events_app;
        norm_state.
Qed.

Lemma set_mux_id (s : State) : set_mux (DefaultServeMux s) (add_events [] s) = s.
Proof. destruct s; unfold set_mux, add_events; cbn. by rewrite app_nil_r. Qed.

(** The inner loop of lines 127-129 over the entries [l] of one handler map. *)
Lemma handle_loop_run (l : list (string * AppHandler)) (s : State) :
  let r := for_range l (fun ph => http_Handle (fst ph) (HApp (snd ph))) s in
  exists ev,
    fst r = set_mux (DefaultServeMux (fst r)) (add_events ev s)
    /\ Forall (fun e => phase e = 3%nat /\ is_setup e = false) ev
    /\ match snd r with
       | Ok _ =>
           forall p h,
             DefaultServeMux (fst r) !! p = Some h <->
             DefaultServeMux s !! p = Some h \/ exists a, (p, a) ∈ l /\ h = HApp a
       | Exit _ => False
       | Panic _ => True
       end.
Proof.
  revert s. induction l as [|[p0 a0] l IH]; intros s; cbn zeta.
  - exists []. cbn. rewrite set_mux_id. split; [done|]. split; [constructor|].
    intros p h. split; [auto|]. intros [?|(a & Ha & _)]; [done|].
    by apply elem_of_nil in Ha.
  - cbn [for_range]. rewrite bind_run, http_Handle_run. cbn [fst snd].
    destruct (bool_decide (p0 = "")).
    { exists [EvHandle p0 (HApp a0)]. cbn. repeat split. repeat constructor. }
    destruct (DefaultServeMux s !! p0) eqn:Hp0.
    { exists [EvHandle p0 (HApp a0)]. cbn. repeat split. repeat constructor. }
    set (s1 := set_mux _ _).
    destruct (IH s1) as (ev & Hst & Hev & Hout).
    exists (EvHandle p0 (HApp a0) :: ev). split; [|split].
    + rewrite Hst at 1. unfold s1.
      rewrite add_events_set_mux, add_events_app. reflexivity.
    + constructor; [by split|done].
    + destruct (snd (for_range l _ s1)) as [u| |]; [|done|done].
      intros p h. rewrite Hout. unfold s1. cbn [DefaultServeMux set_mux add_events].
      split.
      * intros [Hi|(a & Ha & ->)].
        -- destruct (decide (p0 = p)) as [->|Hne].
           ++ rewrite lookup_insert_eq in Hi. injection Hi as <-.
              right. exists a0. split; [apply elem_of_cons; by left|done].
           ++ rewrite lookup_insert_ne in Hi by done. by left.
        -- right. exists a. split; [apply elem_of_cons; by right|done].
      * intros [Hi|(a & Ha & ->)].
        -- left. rewrite lookup_insert_ne; [done|]. intros ->. congruence.
        -- apply elem_of_cons in Ha as [Heq|Ha].
           ++ simplify_eq. left. by rewrite lookup_insert_eq.
           ++ right. by exists a.
Qed.

(** The registration loop started in any state [s]. *)
Lemma registerLoop_run (f : Flags) (w : World) (cfg cs : list LogConfig) (s : State) :
  let r := registerLoop f w cfg cs s in
  exists ev,
    fst r = set_mux (DefaultServeMux (fst r)) (add_events ev s)
    /\ Forall (fun e => phase e = 3%nat) ev
    /\ match snd r with
       | Ok _ =>
           List.filter is_setup ev = List.map EvSetUpInstance cs
           /\ exists hs,
               Forall2 (fun c h => SetUpInstance w c (rpcDeadlineFlag f) = inr h) cs hs
               /\ forall p h,
                   DefaultServeMux (fst r) !! p = Some h <->
                   DefaultServeMux s !! p = Some h
                   \/ exists hc a, hc ∈ hs /\ hc !! p = Some a /\ h = HApp a
       | Exit code =>
           code = 1%Z
           /\ exists c e, c ∈ cs /\ SetUpInstance w c (rpcDeadlineFlag f) = inl e
       | Panic _ => True
       end.
Proof.
  revert s. induction cs as [|c cs IH]; intros s; cbn zeta.
  - exists []. cbn. rewrite set_mux_id. split; [done|]. split; [constructor|].
    split; [done|]. exists []. split; [constructor|].
    intros p h. split; [auto|]. intros [?|(hc & a & Hin & _)]; [done|].
    by apply elem_of_nil in Hin.
  - unfold registerLoop in *. cbn [for_range].
    rewrite !bind_run, emit_run.
    destruct (SetUpInstance w c (rpcDeadlineFlag f)) as [e|hc] eqn:E.
    { exists [EvSetUpInstance c; EvLog FATAL (MsgSetUpFailed cfg e)].
      cbn. split; [unfold set_mux, add_events; cbn; by rewrite <- app_assoc|].
      split; [repeat constructor|]. split; [done|].
      exists c, e. split; [apply elem_of_cons; by left|done]. }
    rewrite ret_bind.
    set (s1 := add_events [EvSetUpInstance c] s).
    destruct (handle_loop_run (map_to_list hc) s1) as (ev1 & Hst1 & Hev1 & Hout1).
    cbn zeta in *.
    destruct (for_range (map_to_list hc) _ s1) as [s2 o2]. cbn [fst snd] in *.
    destruct o2 as [u| |]; [|done|].
    2:{ exists (EvSetUpInstance c :: ev1). cbn [fst snd]. split; [|split; [|done]].
        - rewrite Hst1 at 1. unfold s1. by rewrite add_events_app.
        - constructor; [done|]. eapply Forall_impl; [exact Hev1|]. by intros ? [? ?]. }
    destruct (IH s2) as (ev2 & Hst2 & Hev2 & Hout2). cbn zeta in *.
    destruct (for_range cs _ s2) as [s3 o3]. cbn [fst snd] in *.
    exists (EvSetUpInstance c :: ev1 ++ ev2). split; [|split].
    + rewrite Hst2 at 1. rewrite Hst1 at 1. unfold s1.
      rewrite !add_events_set_mux, !add_events_app. reflexivity.
    + constructor; [done|]. apply Forall_app. split; [|done].
      eapply Forall_impl; [exact Hev1|]. by intros ? [? ?].
    + destruct o3 as [u3|code|]; [| |done].
      * destruct Hout2 as (Hf & hs & Hhs & Hmux). split.
        -- cbn. rewrite List.filter_app, Hf. f_equal.
           replace (List.filter is_setup ev1) with (@nil Event); [done|].
           clear -Hev1. induction Hev1 as [|e l [_ He] _ IHl]; [done|].
           cbn. by rewrite He.
        -- exists (hc :: hs). split; [by constructor|].
           intros p h. rewrite Hmux, Hout1. unfold s1. cbn [DefaultServeMux add_events].
           split.
           ++ intros [[?|(a & Ha & ->)]|(hc' & a & Hin & Hl & ->)].
              ** by left.
              ** right. exists hc, a. split; [apply elem_of_cons; by left|].
                 split; [|done]. by apply elem_of_map_to_list in Ha.
              ** right. exists hc', a. split; [apply elem_of_cons; by right|done].
           ++ intros [?|(hc' & a & Hin & Hl & ->)]; [by left; left|].
              apply elem_of_cons in Hin as [->|Hin].
              ** left; right. exists a. split; [|done]. by apply elem_of_map_to_list.
              ** right. by exists hc', a.
      * destruct Hout2 as (-> & c' & e & Hin & He). split; [done|].
        exists c', e. split; [apply elem_of_cons; by right|done].
Qed.

Lemma run_defers_run (f : Flags) (w : World) (s : State) :
  deferred s = DeferConnClose :: ds_pre f ->
  run_defers w s = (add_events (tr_defers f) s, Ok tt).
Proof.
  intros Hd. unfold run_defers. rewrite Hd. unfold ds_pre, tr_defers, tr_retract.
  destruct (dynamic f); cbn [for_range run_deferred];
    unfold Resolver_Update, glog_Infof; norm_state.
Qed.

(** Every run has one of the shapes of [Run]. *)
Lemma process_run (f : Flags) (w : World) :
  Run f w (run_trace f w) (final_mux f w) (exit_status f w).
Proof.
  unfold run_trace, final_mux, exit_status, process. rewrite main_initial.
  destruct (LogConfigFromFile w (logConfigFlag f)) as [err|cfg] eqn:Hcfg.
  { cbn. by apply RunConfigFailed. }
  destruct (if dynamic f then clientv3_New w (etcd_endpoints f) else None)
    as [err|] eqn:Hnew.
  { destruct (dynamic f) eqn:Hdyn; [|done]. cbn. by eapply RunEtcdFailed. }
  clear Hnew.
  destruct (grpc_Dial w (rpcBackendFlag f) (resolver_of f)) as [e|] eqn:Hdial.
  { cbn. by eapply RunDialFailed. }
  set (s0 := st f (tr_pre f) (DeferConnClose :: ds_pre f)).
  rewrite bind_run.
  destruct (registerLoop_run f w cfg cfg s0) as (ev & Hst & Hev & Hout).
  cbn zeta in *.
  destruct (registerLoop f w cfg cfg s0) as [s1 o1]. cbn [fst snd] in *.
  assert (Hd1 : deferred s1 = DeferConnClose :: ds_pre f) by (by rewrite Hst).
  assert (Ht1 : trace s1 = (tr_pre f ++ ev)%list) by (by rewrite Hst).
  destruct o1 as [u|code|msg].
  - destruct Hout as (Hf & hs & Hhs & Hmux).
    assert (Hmux' : forall p h,
      DefaultServeMux s1 !! p = Some h <->
      exists hc a, hc ∈ hs /\ hc !! p = Some a /\ h = HApp a).
    { intros p h. rewrite Hmux. cbn. rewrite lookup_empty.
      split; [intros [?|?]; [done|assumption]|by right]. }
    clear Hmux.
    rewrite main_tail_run. cbn zeta.
    change (tr_metrics f ++ tr_refresh f (S (List.length (trace s1))) cfg
            ++ tr_serve f w)%list
      with (tr_after f w cfg (List.length (trace s1))).
    destruct (bool_decide (metricsAt f <> httpEndpoint f)) eqn:Hm.
    + apply bool_decide_eq_true in Hm.
      assert (Hroutes : routes f hs (DefaultServeMux s1)).
      { intros p h. rewrite Hmux'.
        split; [by left|intros [?|(? & _)]; [assumption|done]]. }
      unfold serve_outcome. destruct (serving w) as [sig|err] eqn:Hs.
      * cbn [fst snd trace add_events DefaultServeMux]. rewrite Ht1, <- app_assoc.
        eapply RunSignalled; eauto. by repeat split.
      * rewrite (run_defers_run f) by done.
        cbn [fst snd trace add_events DefaultServeMux].
        rewrite Ht1, <- !app_assoc.
        eapply RunReturned; eauto. by repeat split.
    + apply bool_decide_eq_false in Hm. apply dec_stable in Hm.
      destruct (DefaultServeMux s1 !! "/metrics") eqn:Hl.
      { rewrite (run_defers_run f) by done.
        cbn [fst snd trace add_events DefaultServeMux].
        rewrite Ht1, <- !app_assoc.
        eapply (RunPanicked f w cfg ev [EvHandle "/metrics" HProm]); eauto. }
      assert (Hroutes : routes f hs (<["/metrics" := HProm]> (DefaultServeMux s1))).
      { intros p h. destruct (decide (p = "/metrics")) as [->|Hne].
        - rewrite lookup_insert_eq. split.
          + intros [= <-]. by right.
          + intros [(hc & a & Hin & Hl' & ->)|(_ & _ & ->)]; [|done].
            assert (DefaultServeMux s1 !! "/metrics" = Some (HApp a)) as Hc
              by (apply Hmux'; by exists hc, a).
            congruence.
        - rewrite lookup_insert_ne by done. rewrite Hmux'.
          split; [by left|intros [?|(_ & ? & _)]; [assumption|done]]. }
      unfold serve_outcome. destruct (serving w) as [sig|err] eqn:Hs.
      * cbn [fst snd trace add_events set_mux DefaultServeMux].
        rewrite Ht1, <- app_assoc.
        eapply RunSignalled; eauto. by repeat split.
      * rewrite (run_defers_run f) by done.
        cbn [fst snd trace add_events set_mux DefaultServeMux].
        rewrite Ht1, <- !app_assoc.
        eapply RunReturned; eauto. by repeat split.
  - destruct Hout as (-> & c & e & Hin & He). cbn [fst snd]. rewrite Ht1.
    by eapply RunSetUpFailed.
  - rewrite (run_defers_run f) by done.
    cbn [fst snd trace add_events DefaultServeMux]. rewrite Ht1, <- app_assoc.
    eapply (RunPanicked f w cfg ev []); eauto.
Qed.

(** ** The events of a run come in the order of the steps of [main] *)

Lemma seg_const (k : nat) (l : list Event) :
  Forall (fun e => phase e = k) l -> seg k k l.
Proof.
  intros H. split.
  - induction H as [|e l He Hl IH]; [constructor|].
    constructor; [done|].
    eapply Forall_impl; [exact Hl|]. intros e' He'. unfold phase_le. cbn in *. lia.
  - eapply Forall_impl; [exact H|]. intros e He. cbn in He. lia.
Qed.

Lemma seg_weaken (a b a' b' : nat) (l : list Event) :
  seg a b l -> (a' <= a)%nat -> (b <= b')%nat -> seg a' b' l.
Proof.
  intros [Hs Hf] ? ?. split; [done|].
  eapply Forall_impl; [exact Hf|]. intros e He. cbn in He. lia.
Qed.

Lemma seg_app (a b c d : nat) (l1 l2 : list Event) :
  seg a b l1 -> seg c d l2 -> (b <= c)%nat -> seg (min a c) (max b d) (l1 ++ l2).
Proof.
  intros [Hs1 Hf1] [Hs2 Hf2] Hbc. split.
  - apply StronglySorted_app. split; [|done].
    intros x1 x2 H1 H2.
    rewrite Forall_forall in Hf1, Hf2.
    specialize (Hf1 x1 H1). specialize (Hf2 x2 H2). unfold phase_le. cbn in *. lia.
  - apply Forall_app. split.
    + eapply Forall_impl; [exact Hf1|]. intros e He. cbn in He. lia.
    + eapply Forall_impl; [exact Hf2|]. intros e He. cbn in He. lia.
Qed.

Lemma seg_nil (a b : nat) : seg a b [].
Proof. split; constructor. Qed.

Lemma seg_tr_pre (f : Flags) : seg 0 2 (tr_pre f).
Proof.
  unfold tr_pre, tr_announce. destruct (dynamic f); cbn; split;
    repeat (constructor; unfold phase_le; cbn; try lia).
Qed.

Lemma refresh_events_phase (n : nat) (d : Duration) (cs : list LogConfig) :
  Forall (fun e => phase e = 5%nat) (refresh_events n d cs).
Proof. revert n. induction cs; intros n; cbn; repeat constructor. apply IHcs. Qed.

Lemma tr_metrics_phase (f : Flags) : Forall (fun e => phase e = 4%nat) (tr_metrics f).
Proof. unfold tr_metrics. case_bool_decide; repeat constructor. Qed.

Lemma tr_refresh_phase (f : Flags) (n : nat) (cfg : list LogConfig) :
  Forall (fun e => phase e = 5%nat) (tr_refresh f n cfg).
Proof.
  unfold tr_refresh. destruct (0 <? getSTHInterval f)%Z; [|constructor].
  apply refresh_events_phase.
Qed.

Lemma tr_serve_phase (f : Flags) (w : World) :
  Forall (fun e => phase e = 6%nat) (tr_serve f w).
Proof. unfold tr_serve. destruct (serving w); repeat constructor. Qed.

Lemma seg_tr_after (f : Flags) (w : World) (cfg : list LogConfig) (n : nat) :
  seg 4 6 (tr_after f w cfg n).
Proof.
  unfold tr_after.
  pose proof (seg_const _ _ (tr_metrics_phase f)) as H4.
  pose proof (seg_const _ _ (tr_refresh_phase f (S n) cfg)) as H5.
  pose proof (seg_const _ _ (tr_serve_phase f w)) as H6.
  pose proof (seg_app _ _ _ _ _ _ H5 H6 ltac:(lia)) as H56.
  exact (seg_app _ _ _ _ _ _ H4 H56 ltac:(lia)).
Qed.

Lemma seg_tr_defers (f : Flags) : seg 7 8 (tr_defers f).
Proof.
  unfold tr_defers, tr_retract. destruct (dynamic f); cbn; split;
    repeat (constructor; unfold phase_le; cbn; try lia).
Qed.

Lemma Run_seg (f : Flags) (w : World) (tr : list Event)
    (mux : gmap string Handler) (code : Z) :
  Run f w tr mux code -> seg 0 8 tr.
Proof.
  intros H. destruct H as
    [err _|cfg err _ _ _|cfg e _ _|cfg ev m c e _ Hev _ _|cfg ev evm m _ Hev Hevm
    |cfg ev hs m sig _ (Hev & _) _ _|cfg ev hs m err _ (Hev & _) _ _].
  - split; repeat (constructor; unfold phase_le; cbn; try lia).
  - split; repeat (constructor; unfold phase_le; cbn; try lia).
  - assert (seg 2 2 [EvLog FATAL (MsgDialFailed e)]) as H2
      by (apply seg_const; repeat constructor).
    exact (seg_weaken _ _ 0 8 _
             (seg_app _ _ _ _ _ _ (seg_tr_pre f) H2 ltac:(lia)) ltac:(lia) ltac:(lia)).
  - exact (seg_weaken _ _ 0 8 _
             (seg_app _ _ _ _ _ _ (seg_tr_pre f) (seg_const _ _ Hev) ltac:(lia))
             ltac:(lia) ltac:(lia)).
  - assert (seg 4 4 evm) as H4
      by (destruct Hevm as [->| ->]; [apply seg_nil|apply seg_const; repeat constructor]).
    pose proof (seg_app _ _ _ _ _ _ H4 (seg_tr_defers f) ltac:(lia)) as H48.
    pose proof (seg_app _ _ _ _ _ _ (seg_const _ _ Hev) H48 ltac:(lia)) as H38.
    exact (seg_weaken _ _ 0 8 _
             (seg_app _ _ _ _ _ _ (seg_tr_pre f) H38 ltac:(lia)) ltac:(lia) ltac:(lia)).
  - pose proof (seg_app _ _ _ _ _ _ (seg_const _ _ Hev)
                  (seg_tr_after f w cfg (List.length (tr_pre f ++ ev))) ltac:(lia)) as H36.
    exact (seg_weaken _ _ 0 8 _
             (seg_app _ _ _ _ _ _ (seg_tr_pre f) H36 ltac:(lia)) ltac:(lia) ltac:(lia)).
  - pose proof (seg_app _ _ _ _ _ _
                  (seg_tr_after f w cfg (List.length (tr_pre f ++ ev)))
                  (seg_tr_defers f) ltac:(lia)) as H48.
    pose proof (seg_app _ _ _ _ _ _ (seg_const _ _ Hev) H48 ltac:(lia)) as H38.
    exact (seg_weaken _ _ 0 8 _
             (seg_app _ _ _ _ _ _ (seg_tr_pre f) H38 ltac:(lia)) ltac:(lia) ltac:(lia)).
Qed.

Lemma run_trace_sorted (f : Flags) (w : World) :
  StronglySorted phase_le (run_trace f w).
Proof. exact (proj1 (Run_seg _ _ _ _ _ (process_run f w))). Qed.

(** In a sorted trace, an event of an earlier step has the smaller index. *)
Lemma sorted_lookup_lt (tr : list Event) (i j : nat) (a b : Event) :
  StronglySorted phase_le tr ->
  tr !! i = Some a -> tr !! j = Some b ->
  (phase a < phase b)%nat -> (i < j)%nat.
Proof.
  intros Hs. revert i j. induction Hs as [|x l Hs IH Hx]; intros i j Hi Hj Hlt.
  { by rewrite lookup_nil in Hi. }
  destruct i as [|i], j as [|j]; cbn in Hi, Hj.
  - simplify_eq. lia.
  - lia.
  - simplify_eq. rewrite Forall_forall in Hx.
    assert (phase_le b a) as Hle by (apply Hx; by eapply list_elem_of_lookup_2).
    unfold phase_le in Hle. lia.
  - apply -> Nat.succ_lt_mono. by eapply IH.
Qed.

(** ** Runs that serve, and runs that do not *)

Lemma is_listen_phase (e : Event) : is_listen e = true -> phase e = 6%nat.
Proof. by destruct e. Qed.

Lemma seg_no_listen (a b : nat) (l : list Event) :
  seg a b l -> (b < 6 \/ 6 < a)%nat -> existsb is_listen l = false.
Proof.
  intros [_ Hf] Hab. destruct (existsb is_listen l) eqn:E; [|done].
  apply existsb_exists in E as (e & Hin & He).
  apply is_listen_phase in He. rewrite Forall_forall in Hf.
  apply list_elem_of_In, Hf in Hin. cbn in Hin. lia.
Qed.

Lemma tr_after_listens (f : Flags) (w : World) (cfg : list LogConfig) (n : nat) :
  existsb is_listen (tr_after f w cfg n) = true.
Proof.
  unfold tr_after, tr_serve. rewrite !existsb_app. cbn.
  by rewrite !orb_true_r.
Qed.

(** The runs that reach [ListenAndServe], in full. *)
Lemma serves_inv (f : Flags) (w : World) :
  serves f w = true ->
  exists cfg ev hs,
    LogConfigFromFile w (logConfigFlag f) = inr cfg
    /\ registered f w cfg ev hs
    /\ routes f hs (final_mux f w)
    /\ run_trace f w =
        (tr_pre f ++ ev ++ tr_after f w cfg (List.length (tr_pre f ++ ev))
         ++ match serving w with
            | SignalReceived _ => []
            | ListenerReturned _ => tr_defers f
            end)%list
    /\ exit_status f w =
        match serving w with
        | SignalReceived _ => 1%Z
        | ListenerReturned _ => 0%Z
        end.
Proof.
  unfold serves. generalize (process_run f w).
  generalize (run_trace f w) (final_mux f w) (exit_status f w).
  intros tr mux code H. destruct H as
    [err _|cfg err _ _ _|cfg e _ _|cfg ev m c e _ Hev _ _|cfg ev evm m _ Hev Hevm
    |cfg ev hs m sig Hcfg Hreg Hroutes Hs|cfg ev hs m err Hcfg Hreg Hroutes Hs].
  - done.
  - done.
  - rewrite existsb_app, (seg_no_listen _ _ _ (seg_tr_pre f)) by lia. done.
  - rewrite existsb_app, (seg_no_listen _ _ _ (seg_tr_pre f)),
      (seg_no_listen _ _ _ (seg_const _ _ Hev)) by lia. done.
  - rewrite !existsb_app, (seg_no_listen _ _ _ (seg_tr_pre f)),
      (seg_no_listen _ _ _ (seg_const _ _ Hev)),
      (seg_no_listen _ _ _ (seg_tr_defers f)) by lia.
    by destruct Hevm as [->| ->].
  - intros _. exists cfg, ev, hs. rewrite Hs, app_nil_r. done.
  - intros _. exists cfg, ev, hs. rewrite Hs. done.
Qed.

(** The runs that do not: they end with a nonzero status, and no log is
    half served. *)
Lemma not_serves_inv (f : Flags) (w : World) :
  serves f w = false ->
  (exit_status f w = 1 \/ exit_status f w = 2)%Z
  /\ Forall (fun e => is_listener_start e = false) (run_trace f w)
  /\ Forall (fun e => is_refresh_start e = false) (run_trace f w).
Proof.
  unfold serves. generalize (process_run f w).
  generalize (run_trace f w) (final_mux f w) (exit_status f w).
  intros tr mux code H.
  assert (Hseg : forall a b l, seg a b l -> (b < 4 \/ 6 < a)%nat ->
            Forall (fun e => is_listener_start e = false) l
            /\ Forall (fun e => is_refresh_start e = false) l).
  { intros a b l [_ Hf] Hab. split; eapply Forall_impl; try exact Hf;
      intros e He; cbn in He; destruct e as [| | | | | | | | | |[]| |];
      try done; cbn in He; try destruct h; cbn in He; lia. }
  destruct H as
    [err _|cfg err _ _ _|cfg e _ _|cfg ev m c e _ Hev _ _|cfg ev evm m _ Hev Hevm
    |cfg ev hs m sig Hcfg Hreg Hroutes Hs|cfg ev hs m err Hcfg Hreg Hroutes Hs];
    intros Hno.
  - split; [by left|]. split; repeat constructor.
  - split; [by left|]. split; repeat constructor.
  - split; [by left|].
    destruct (Hseg _ _ _ (seg_tr_pre f) ltac:(lia)) as [H1 H2].
    split; apply Forall_app; (split; [done|repeat constructor]).
  - split; [by left|].
    destruct (Hseg _ _ _ (seg_tr_pre f) ltac:(lia)) as [H1 H2].
    destruct (Hseg _ _ _ (seg_const _ _ Hev) ltac:(lia)) as [H3 H4].
    split; apply Forall_app; done.
  - split; [by right|].
    destruct (Hseg _ _ _ (seg_tr_pre f) ltac:(lia)) as [H1 H2].
    destruct (Hseg _ _ _ (seg_const _ _ Hev) ltac:(lia)) as [H3 H4].
    destruct (Hseg _ _ _ (seg_tr_defers f) ltac:(lia)) as [H5 H6].
    split; rewrite !Forall_app; (split; [done|]); (split; [done|]);
      (split; [|done]); destruct Hevm as [->| ->]; repeat constructor.
  - rewrite !existsb_app, tr_after_listens in Hno. cbn [orb] in Hno.
    by rewrite !orb_true_r in Hno.
  - rewrite !existsb_app, tr_after_listens in Hno. cbn [orb] in Hno.
    by rewrite !orb_true_r in Hno.
Qed.

(** ** Exit status *)

(** C1, as the specification states it, fails: a SIGTERM that arrives while
    the server is serving ends the process with status 1, not 0. *)
Lemma sigterm_while_serving_exits_1 :
  ~ spec_signal_exits_zero flags_static world_sigterm.
Proof.
  intros H.
  assert (exit_status flags_static world_sigterm = 0%Z) as E
    by (apply H; [reflexivity|by exists SIGTERM]).
  vm_compute in E. discriminate.
Qed.

(** C1 (amended): the exit status of every run.  A run that reaches the main
    [ListenAndServe] exits with status 1 when a termination signal arrives
    while it serves, and with status 0 when the listener returns and [main]
    runs to its end; a run that does not reach it (a fatal start-up failure)
    exits with status 1, or 2 when it panicked. *)
Theorem exit_status_by_ending (f : Flags) (w : World) :
  if serves f w
  then exit_status f w =
       match serving w with
       | SignalReceived _ => 1%Z
       | ListenerReturned _ => 0%Z
       end
  else exit_status f w = 1%Z \/ exit_status f w = 2%Z.
Proof.
  destruct (serves f w) eqn:E.
  - by destruct (serves_inv f w E) as (cfg & ev & hs & _ & _ & _ & _ & ->).
  - by destruct (not_serves_inv f w E) as [H _].
Qed.

(** ** Shutdown *)

Lemma seg_no_cleanup (a b : nat) (l : list Event) :
  seg a b l -> (b < 7)%nat ->
  Forall (fun e => is_conn_close e = false /\ is_retract e = false) l.
Proof.
  intros [_ Hf] Hb. eapply Forall_impl; [exact Hf|].
  intros e He. cbn in He. destruct e as [| | | |sv [[] ad]| | | | | | | |];
    cbn in *; (done || lia).
Qed.

Lemma forallb_lookup {A} (p : A -> bool) (l : list A) (i : nat) (x : A) :
  forallb p l = true -> l !! i = Some x -> p x = true.
Proof.
  intros H Hi. rewrite forallb_forall in H. apply H.
  apply list_elem_of_In. by eapply list_elem_of_lookup_2.
Qed.

(** The sentence of the specification on the shutdown sequence, at a SIGTERM
    while serving in the dynamic variant: it does not hold, the process ends
    at once, no retraction is attempted and the connection is not closed. *)
Lemma sigterm_skips_deferred_cleanup :
  ~ spec_retract_before_close flags_dynamic world_sigterm.
Proof.
  intros H.
  destruct H as (i & j & r & Hi & Hr & _); [reflexivity|reflexivity|by exists SIGTERM|].
  assert (forallb (fun e => negb (is_retract e))
            (run_trace flags_dynamic world_sigterm) = true) as Hall
    by (vm_compute; reflexivity).
  pose proof (forallb_lookup _ _ _ _ Hall Hi) as Hn. cbn in Hn.
  rewrite Hr in Hn. discriminate.
Qed.

(** The path on which the deferred calls do run.  In the dynamic variant,
    when the main listener returns and [main] runs to its end, the deferred
    calls run latest first: the backend connection is closed, then the
    retraction of the HTTP and of the metrics announcement is attempted; these
    are the last events of the run, nothing before them closes the connection
    or retracts, and the status is 0. *)
Theorem cleanup_when_listener_returns (f : Flags) (w : World) (err : error) :
  dynamic f = true ->
  serves f w = true ->
  serving w = ListenerReturned err ->
  exit_status f w = 0%Z
  /\ exists pre,
      run_trace f w = (pre ++ EvConnClose :: tr_retract f)%list
      /\ Forall (fun e => is_conn_close e = false /\ is_retract e = false) pre.
Proof.
  intros Hdyn Hserves Hs.
  destruct (serves_inv f w Hserves) as (cfg & ev & hs & _ & (Hev & _) & _ & Htr & Hex).
  rewrite Hs in Htr, Hex. split; [done|].
  exists (tr_pre f ++ ev ++ tr_after f w cfg (List.length (tr_pre f ++ ev)))%list.
  split.
  - rewrite Htr. unfold tr_defers. rewrite Hdyn. by rewrite <- !app_assoc.
  - rewrite !Forall_app. split; [|split].
    + exact (seg_no_cleanup _ _ _ (seg_tr_pre f) ltac:(lia)).
    + exact (seg_no_cleanup _ _ _ (seg_const _ _ Hev) ltac:(lia)).
    + exact (seg_no_cleanup _ _ _ (seg_tr_after f w cfg _) ltac:(lia)).
Qed.

Lemma cleanup_when_listener_returns_witness :
  exit_status flags_dynamic world_ok = 0%Z
  /\ exists pre,
      run_trace flags_dynamic world_ok
      = (pre ++ EvConnClose :: tr_retract flags_dynamic)%list
      /\ Forall (fun e => is_conn_close e = false /\ is_retract e = false) pre.
Proof.
  apply (cleanup_when_listener_returns flags_dynamic world_ok
           "listen tcp: address already in use"); reflexivity.
Defined.

(** ** Registration *)

(** C6: when the set-up of any one configured log fails, the process exits
    with a nonzero status and no HTTP listener is ever started: neither the
    main one nor the one of the metrics server. *)
Theorem setup_failure_is_fatal (f : Flags) (w : World)
    (cfg : list LogConfig) (c : LogConfig) (err : error) :
  LogConfigFromFile w (logConfigFlag f) = inr cfg ->
  c ∈ cfg ->
  SetUpInstance w c (rpcDeadlineFlag f) = inl err ->
  exit_status f w <> 0%Z
  /\ Forall (fun e => is_listener_start e = false) (run_trace f w).
Proof.
  intros Hcfg Hin Hfail.
  destruct (serves f w) eqn:E.
  - destruct (serves_inv f w E) as (cfg' & ev & hs & Hcfg' & (_ & _ & Hall) & _).
    rewrite Hcfg in Hcfg'. injection Hcfg' as <-.
    apply list_elem_of_lookup in Hin as [i Hi].
    destruct (Forall2_lookup_l _ _ _ _ _ Hall Hi) as (h & _ & Hok).
    congruence.
  - destruct (not_serves_inv f w E) as (Hex & Hno & _).
    split; [|done]. destruct Hex as [-> | ->]; done.
Qed.

Lemma setup_failure_is_fatal_witness :
  exit_status flags_static world_logB_fails <> 0%Z
  /\ Forall (fun e => is_listener_start e = false)
       (run_trace flags_static world_logB_fails).
Proof.
  apply (setup_failure_is_fatal flags_static world_logB_fails [logA; logB] logB
           "bad config").
  - reflexivity.
  - apply elem_of_cons; right. apply elem_of_cons; by left.
  - reflexivity.
Defined.

(** ** Announcements *)

(** C3, as the specification states it, fails: in the dynamic variant the
    first announcement is the fifth event of the run, and no listener was
    started before it. *)
Lemma announce_before_any_listener :
  ~ spec_announce_after_listen flags_dynamic world_ok.
Proof.
  intros H.
  destruct (H 4%nat (EvEtcdUpdate "trillian-ctfe-http"
                       {| Op := Add; Addr := "localhost:6962" |}))
    as (j & l & Hj & Hl & Hs); [reflexivity|reflexivity|].
  do 4 (destruct j as [|j]; [vm_compute in Hl; simplify_eq; discriminate|]).
  lia.
Qed.

Lemma phase_announce (e : Event) : is_announce e = true -> phase e = 1%nat.
Proof. by destruct e as [| | | |sv [[] ad]| | | | | | | |]. Qed.

Lemma phase_after_announce (e : Event) :
  (is_dial e || is_registration e || is_listener_start e) = true ->
  (1 < phase e)%nat.
Proof.
  destruct e as [| | | | | | | |pt []| |[]| |]; cbn; intros; try done; lia.
Qed.

(** C3 (amended): the announce operations come before the backend connection
    is dialled, before any log instance is registered and before any HTTP
    listener is started: in every run, an announcement has a smaller position
    in the trace than any dial, registration or listener start. *)
Theorem announce_precedes_listeners (f : Flags) (w : World)
    (i j : nat) (a e : Event) :
  run_trace f w !! i = Some a -> is_announce a = true ->
  run_trace f w !! j = Some e ->
  (is_dial e || is_registration e || is_listener_start e) = true ->
  (i < j)%nat.
Proof.
  intros Hi Ha Hj He.
  eapply (sorted_lookup_lt _ _ _ _ _ (run_trace_sorted f w) Hi Hj).
  rewrite (phase_announce _ Ha). by apply phase_after_announce.
Qed.

Lemma announce_precedes_listeners_witness :
  run_trace flags_dynamic world_ok !! 6%nat
  = Some (EvEtcdUpdate "trillian-ctfe-metrics-http"
            {| Op := Add; Addr := "localhost:6963" |})
  /\ run_trace flags_dynamic world_ok !! 14%nat
     = Some (EvGo (GMetricsServer "localhost:6963"))
  /\ (6 < 14)%nat.
Proof.
  split; [reflexivity|]. split; [reflexivity|].
  apply (announce_precedes_listeners flags_dynamic world_ok 6 14
           (EvEtcdUpdate "trillian-ctfe-metrics-http"
              {| Op := Add; Addr := "localhost:6963" |})
           (EvGo (GMetricsServer "localhost:6963"))); reflexivity.
Defined.

(** ** Registration comes first *)

Lemma seg_no_registration (a b : nat) (l : list Event) :
  seg a b l -> (b < 3 \/ 3 < a)%nat ->
  List.filter is_setup l = [] /\ Forall (fun e => is_registration e = false) l.
Proof.
  intros [_ Hf] Hab.
  assert (Forall (fun e => is_registration e = false) l) as Hr.
  { eapply Forall_impl; [exact Hf|]. intros e He. cbn in He.
    destruct e as [| | | | | | | |pt []| | | |]; cbn in *; (done || lia). }
  split; [|done].
  clear Hf. induction Hr as [|e l He _ IH]; [done|].
  cbn. destruct e; try done; cbn in He; discriminate.
Qed.

Lemma phase_after_registration (e : Event) :
  (is_refresh_start e || is_listen e) = true -> (4 < phase e)%nat.
Proof. destruct e as [| | | | | | | | | |[]| |]; cbn; intros; try done; lia. Qed.

(** C9: registration is over before any refresh task or the main listener
    starts.  At an event [e] of the run, at position [j], that makes a ticker,
    starts a refresh goroutine or calls the main [ListenAndServe]: the set-up
    calls made before [j] are those of the N configured logs, once each and
    in configuration order; no registration event is at [j] or later; every
    set-up succeeded, and the router holds the entries of the N handler maps
    (and [/metrics] when the metrics share the main listener), nothing else. *)
Theorem registration_completes_first (f : Flags) (w : World)
    (cfg : list LogConfig) (j : nat) (e : Event) :
  LogConfigFromFile w (logConfigFlag f) = inr cfg ->
  run_trace f w !! j = Some e ->
  (is_refresh_start e || is_listen e) = true ->
  List.filter is_setup (take j (run_trace f w)) = List.map EvSetUpInstance cfg
  /\ Forall (fun e' => is_registration e' = false) (drop j (run_trace f w))
  /\ exists hs,
      List.length hs = List.length cfg
      /\ Forall2 (fun c h => SetUpInstance w c (rpcDeadlineFlag f) = inr h) cfg hs
      /\ routes f hs (final_mux f w).
Proof.
  intros Hcfg Hj He.
  assert (serves f w = true) as Hserves.
  { destruct (serves f w) eqn:E; [done|].
    destruct (not_serves_inv f w E) as (_ & Hl & Hr).
    rewrite Forall_forall in Hl, Hr.
    apply list_elem_of_lookup_2 in Hj.
    specialize (Hl e Hj). specialize (Hr e Hj).
    destruct e as [| | | | | | | | | |[]| |]; cbn in *; done. }
  destruct (serves_inv f w Hserves)
    as (cfg' & ev & hs & Hcfg' & (Hev & Hf & Hall) & Hroutes & Htr & _).
  rewrite Hcfg in Hcfg'. injection Hcfg' as <-.
  assert (Hdrop : Forall (fun e' => (4 < phase e')%nat) (drop j (run_trace f w))).
  { pose proof (run_trace_sorted f w) as Hs.
    rewrite <- (take_drop j (run_trace f w)) in Hs.
    apply StronglySorted_app in Hs as (_ & _ & Hs).
    rewrite (drop_S _ _ _ Hj) in Hs |- *.
    apply StronglySorted_cons in Hs as [Hle _].
    pose proof (phase_after_registration e He) as H4.
    constructor; [done|]. eapply Forall_impl; [exact Hle|].
    intros e' He'. unfold phase_le in He'. lia. }
  assert (Hseg : seg 5 9 (drop j (run_trace f w))).
  { split.
    - pose proof (run_trace_sorted f w) as Hs.
      rewrite <- (take_drop j (run_trace f w)) in Hs.
      by apply StronglySorted_app in Hs as (_ & _ & Hs).
    - eapply Forall_impl; [exact Hdrop|]. intros e' He'. cbn in He'.
      split; [lia|]. destruct e' as [sv []| | | |sv [[] ad]| | | |pt []| |[]| |];
        cbn; lia. }
  destruct (seg_no_registration _ _ _ Hseg ltac:(lia)) as [Hnil Hnone].
  split; [|split; [done|]].
  - assert (List.filter is_setup (run_trace f w) = List.map EvSetUpInstance cfg) as Hall'.
    { rewrite Htr, !List.filter_app, Hf.
      rewrite (proj1 (seg_no_registration _ _ _ (seg_tr_pre f) ltac:(lia))).
      rewrite (proj1 (seg_no_registration _ _ _ (seg_tr_after f w cfg _) ltac:(lia))).
      destruct (serving w).
      - by rewrite !app_nil_r.
      - rewrite (proj1 (seg_no_registration _ _ _ (seg_tr_defers f) ltac:(lia))).
        by rewrite !app_nil_r. }
    rewrite <- (take_drop j (run_trace f w)) in Hall' at 1.
    by rewrite List.filter_app, Hnil, app_nil_r in Hall'.
  - exists hs. split; [|done]. symmetry. by eapply Forall2_length.
Qed.

Lemma registration_completes_first_witness :
  List.filter is_setup (take 11 (run_trace flags_static world_ok))
  = List.map EvSetUpInstance [logA; logB]
  /\ Forall (fun e' => is_registration e' = false)
       (drop 11 (run_trace flags_static world_ok))
  /\ exists hs,
      List.length hs = List.length [logA; logB]
      /\ Forall2 (fun c h => SetUpInstance world_ok c (rpcDeadlineFlag flags_static) = inr h)
           [logA; logB] hs
      /\ routes flags_static hs (final_mux flags_static world_ok).
Proof.
  apply (registration_completes_first flags_static world_ok [logA; logB] 11
           (EvGo (GRefresher logA
                    {| created_at := 10; period := getSTHInterval flags_static |})));
    reflexivity.
Defined.

(** ** The refresh goroutine *)

Lemma for_range_app {A} (l1 l2 : list A) (body : A -> M unit) (s : State) :
  for_range (l1 ++ l2) body s =
  match for_range l1 body s with
  | (s', Ok _) => for_range l2 body s'
  | (s', Exit c) => (s', Exit c)
  | (s', Panic msg) => (s', Panic msg)
  end.
Proof.
  revert s. induction l1 as [|x l1 IH]; intros s; [reflexivity|].
  cbn [for_range app]. rewrite !bind_run.
  destruct (body x s) as [s1 [u| |]]; [apply IH|reflexivity|reflexivity].
Qed.

(** One tick: one fetch, a warning when it failed, and the loop goes on. *)
Lemma refresh_tick_run (f : Flags) (w : World) (c : LogConfig) (t : Time) (s : State) :
  exists l,
    refresh_tick f w c t s = (add_events l {|
        trace := trace s;
        DefaultServeMux := DefaultServeMux s;
        deferred := deferred s;
        MaxGetEntriesAllowed := MaxGetEntriesAllowed s;
        rpcs := S (rpcs s) |}, Ok tt)
    /\ List.filter is_fetch l = [EvGetTreeHead (LogId c) (Prefix c)]
    /\ forall err,
         GetTreeHead w (LogId c) (Prefix c) (rpcs s) = Some err ->
         In (EvLog WARNING (MsgTreeHeadFailed (Prefix c) (LogId c) err)) l.
Proof.
  unfold refresh_tick, glog_V_Infof, glog_Infof, glog_Warningf, ctfe_GetTreeHead.
  destruct (1 <=? v f)%Z;
    destruct (GetTreeHead w (LogId c) (Prefix c) (rpcs s)) as [e|] eqn:E.
  - exists [EvLog INFO (MsgTick t (Prefix c) (LogId c));
            EvGetTreeHead (LogId c) (Prefix c);
            EvLog WARNING (MsgTreeHeadFailed (Prefix c) (LogId c) e)].
    split; [|split; [reflexivity|intros err [= <-]; cbn; tauto]].
    rewrite bind_run, emit_run. cbn. rewrite E. norm_state.
  - exists [EvLog INFO (MsgTick t (Prefix c) (LogId c));
            EvGetTreeHead (LogId c) (Prefix c)].
    split; [|split; [reflexivity|intros err [=]]].
    rewrite bind_run, emit_run. cbn. rewrite E. norm_state.
  - exists [EvGetTreeHead (LogId c) (Prefix c);
            EvLog WARNING (MsgTreeHeadFailed (Prefix c) (LogId c) e)].
    split; [|split; [reflexivity|intros err [= <-]; cbn; tauto]].
    cbn. rewrite E. norm_state.
  - exists [EvGetTreeHead (LogId c) (Prefix c)].
    split; [|split; [reflexivity|intros err [=]]].
    cbn. rewrite E. norm_state.
Qed.

Lemma refresh_loop_run (f : Flags) (w : World) (c : LogConfig)
    (ticks : list Time) (s : State) :
  exists l s',
    for_range ticks (refresh_tick f w c) s = (s', Ok tt)
    /\ trace s' = (trace s ++ l)%list
    /\ rpcs s' = (rpcs s + List.length ticks)%nat
    /\ List.filter is_fetch l
       = repeat (EvGetTreeHead (LogId c) (Prefix c)) (List.length ticks)
    /\ forall k err,
         (k < List.length ticks)%nat ->
         GetTreeHead w (LogId c) (Prefix c) (rpcs s + k) = Some err ->
         In (EvLog WARNING (MsgTreeHeadFailed (Prefix c) (LogId c) err)) l.
Proof.
  revert s. induction ticks as [|t ticks IH]; intros s.
  - exists [], s. cbn. rewrite app_nil_r, Nat.add_0_r.
    repeat split; try done. intros; lia.
  - cbn [for_range]. rewrite bind_run.
    destruct (refresh_tick_run f w c t s) as (l1 & -> & Hf1 & Hw1).
    set (s1 := add_events l1 _).
    destruct (IH s1) as (l2 & s' & -> & Htr & Hn & Hf2 & Hw2).
    exists (l1 ++ l2)%list, s'. split; [done|]. split; [|split; [|split]].
    + rewrite Htr. unfold s1. cbn. by rewrite app_assoc.
    + rewrite Hn. unfold s1. cbn. lia.
    + by rewrite List.filter_app, Hf1, Hf2.
    + intros k err Hk He. apply in_or_app. destruct k as [|k].
      * left. apply Hw1. by rewrite Nat.add_0_r in He.
      * right. apply (Hw2 k); [cbn in Hk; lia|].
        unfold s1. cbn [rpcs add_events].
        by replace (S (rpcs s) + k)%nat with (rpcs s + S k)%nat; [|lia].
Qed.

Lemma refresher_run (f : Flags) (w : World) (c : LogConfig) (ticks : list Time) :
  refresher f w c ticks initial =
  for_range ticks (refresh_tick f w c)
    (add_events [EvLog INFO (MsgStartGetSTH (Prefix c) (LogId c))] initial).
Proof. reflexivity. Qed.

(** C5: a failed fetch is logged and the refresh task goes on.  Whatever the
    fetches answer, the goroutine of a log does not end the process (it
    neither exits nor panics), it makes one fetch for each tick and no other,
    it logs a warning for each fetch that failed, and what it did on the
    first ticks is not changed by the ticks that follow. *)
Theorem fetch_failure_is_logged_and_survived (f : Flags) (w : World)
    (c : LogConfig) (ticks more : list Time) :
  snd (refresher f w c ticks initial) = Ok tt
  /\ List.filter is_fetch (refresher_trace f w c ticks)
     = repeat (EvGetTreeHead (LogId c) (Prefix c)) (List.length ticks)
  /\ (forall k err,
        (k < List.length ticks)%nat ->
        GetTreeHead w (LogId c) (Prefix c) k = Some err ->
        In (EvLog WARNING (MsgTreeHeadFailed (Prefix c) (LogId c) err))
           (refresher_trace f w c ticks))
  /\ refresher_trace f w c ticks `prefix_of` refresher_trace f w c (ticks ++ more).
Proof.
  unfold refresher_trace. rewrite !refresher_run.
  set (s0 := add_events _ initial).
  destruct (refresh_loop_run f w c ticks s0) as (l & s' & Hrun & Htr & Hn & Hf & Hw).
  rewrite for_range_app, Hrun. cbn [fst snd]. split; [done|]. split; [|split].
  - rewrite Htr. unfold s0. cbn. exact Hf.
  - intros k err Hk He. rewrite Htr. apply in_or_app. right. by apply (Hw k).
  - destruct (refresh_loop_run f w c more s') as (l' & s'' & -> & Htr' & _).
    cbn [fst]. rewrite Htr'. by exists l'.
Qed.

(** ** The refresh tasks *)

Lemma seg_no_refresh (a b : nat) (l : list Event) :
  seg a b l -> (b < 5 \/ 5 < a)%nat ->
  Forall (fun e => is_refresh_start e = false) l.
Proof.
  intros [_ Hf] Hab. eapply Forall_impl; [exact Hf|]. intros e He. cbn in He.
  destruct e as [| | | | | | | | | |[]| |]; cbn in *; (done || lia).
Qed.

Lemma phase_registration (e : Event) : is_registration e = true -> phase e = 3%nat.
Proof. by destruct e as [| | | | | | | |pt []| | | |]. Qed.

Lemma tr_metrics_single (f : Flags) : exists e, tr_metrics f = [e] /\ phase e = 4%nat.
Proof. unfold tr_metrics. case_bool_decide; eexists; split; reflexivity. Qed.

Lemma refresher_fetch_count (f : Flags) (w : World) (c : LogConfig) (ticks : list Time) :
  List.length (List.filter is_fetch (refresher_trace f w c ticks)) = List.length ticks.
Proof.
  unfold refresher_trace. rewrite refresher_run.
  set (s0 := add_events _ initial).
  destruct (refresh_loop_run f w c ticks s0) as (l & s' & -> & Htr & _ & Hf & _).
  cbn [fst]. rewrite Htr. unfold s0. cbn. rewrite Hf. apply repeat_length.
Qed.

Lemma refresh_events_lookup (n : nat) (d : Duration) (cs : list LogConfig)
    (k : nat) (c : LogConfig) :
  cs !! k = Some c ->
  refresh_events n d cs !! (2 * k)%nat = Some (EvNewTicker d)
  /\ refresh_events n d cs !! S (2 * k)
     = Some (EvGo (GRefresher c {| created_at := n + 2 * k; period := d |})).
Proof.
  revert n k. induction cs as [|c0 cs IH]; intros n k Hk; [by rewrite lookup_nil in Hk|].
  destruct k as [|k]; cbn in Hk.
  - simplify_eq. cbn. by rewrite Nat.add_0_r.
  - destruct (IH (S (S n)) k Hk) as [H1 H2].
    replace (2 * S k)%nat with (S (S (2 * k))) by lia. cbn [refresh_events lookup list_lookup].
    replace (n + S (S (2 * k)))%nat with (S (S n) + 2 * k)%nat by lia. done.
Qed.

(** C4: one refresh task per log, or none.  When the interval is positive
    and the run reaches the main listener, the trace holds, in one stretch and
    in configuration order, for each configured log one
    [time.NewTicker(interval)] followed by the start of one goroutine bound to
    that log and that ticker, and no other ticker or refresh goroutine.  Each
    ticker is made after every registration event, so each of its ticks comes
    at least one interval after registration; and a refresh goroutine fetches
    once for each tick it has received, so not before its first tick.
    Otherwise (the interval is 0, or negative, or the run stops before
    serving) no ticker is made and no refresh goroutine is started. *)
Theorem one_refresh_task_per_log (f : Flags) (w : World)
    (cfg : list LogConfig) (clock : nat -> Time) :
  LogConfigFromFile w (logConfigFlag f) = inr cfg ->
  (forall i j, (i <= j)%nat -> (clock i <= clock j)%Z) ->
  if (0 <? getSTHInterval f)%Z && serves f w
  then
    exists pre post,
      run_trace f w
      = (pre ++ refresh_events (List.length pre) (getSTHInterval f) cfg ++ post)%list
      /\ Forall (fun e => is_refresh_start e = false) (pre ++ post)
      /\ (forall k c,
            cfg !! k = Some c ->
            let tk := {| created_at := List.length pre + 2 * k;
                         period := getSTHInterval f |} in
            run_trace f w !! created_at tk = Some (EvNewTicker (getSTHInterval f))
            /\ run_trace f w !! S (created_at tk) = Some (EvGo (GRefresher c tk))
            /\ forall i r n,
                 run_trace f w !! i = Some r -> is_registration r = true ->
                 (i < created_at tk)%nat
                 /\ (clock i + getSTHInterval f <= tick_time clock tk n)%Z)
      /\ (forall c ticks,
            List.length (List.filter is_fetch (refresher_trace f w c ticks))
            = List.length ticks)
  else Forall (fun e => is_refresh_start e = false) (run_trace f w).
Proof.
  intros Hcfg Hclock.
  destruct (serves f w) eqn:Hserves.
  2:{ rewrite andb_false_r. by destruct (not_serves_inv f w Hserves) as (_ & _ & H). }
  rewrite andb_true_r.
  destruct (serves_inv f w Hserves)
    as (cfg' & ev & hs & Hcfg' & (Hev & _) & _ & Htr & _).
  rewrite Hcfg in Hcfg'. injection Hcfg' as <-.
  set (tail := match serving w with
               | SignalReceived _ => []
               | ListenerReturned _ => tr_defers f
               end) in Htr.
  assert (Htail : seg 7 8 tail)
    by (unfold tail; destruct (serving w); [apply seg_nil|apply seg_tr_defers]).
  unfold tr_after, tr_refresh in Htr.
  destruct (tr_metrics_single f) as (m & Hm & Hpm).
  pose proof (seg_no_refresh _ _ _ (seg_tr_pre f) ltac:(lia)) as N1.
  pose proof (seg_no_refresh _ _ _ (seg_const _ _ Hev) ltac:(lia)) as N2.
  pose proof (seg_no_refresh _ _ _ (seg_const _ _ (tr_metrics_phase f)) ltac:(lia)) as N3.
  pose proof (seg_no_refresh _ _ _ (seg_const _ _ (tr_serve_phase f w)) ltac:(lia)) as N4.
  pose proof (seg_no_refresh _ _ _ Htail ltac:(lia)) as N5.
  destruct (0 <? getSTHInterval f)%Z eqn:Hd.
  - apply Z.ltb_lt in Hd.
    set (pre := (tr_pre f ++ ev ++ tr_metrics f)%list).
    exists pre, (tr_serve f w ++ tail)%list.
    assert (Hlen : List.length pre = S (List.length (tr_pre f ++ ev))).
    { unfold pre. rewrite Hm, !length_app. cbn. lia. }
    assert (Htr' : run_trace f w
                   = (pre ++ refresh_events (List.length pre) (getSTHInterval f) cfg
                          ++ tr_serve f w ++ tail)%list).
    { rewrite Htr, Hlen. unfold pre. by rewrite <- !app_assoc. }
    split; [exact Htr'|]. split; [|split].
    + unfold pre. rewrite !Forall_app. done.
    + intros k c Hk tk.
      destruct (refresh_events_lookup (List.length pre) (getSTHInterval f) cfg k c Hk)
        as [Hticker Hgo].
      assert (Hnew : run_trace f w !! created_at tk = Some (EvNewTicker (getSTHInterval f))).
      { rewrite Htr'. unfold tk. cbn [created_at].
        rewrite lookup_app_r by lia.
        replace (List.length pre + 2 * k - List.length pre)%nat with (2 * k)%nat by lia.
        by apply lookup_app_l_Some. }
      split; [exact Hnew|]. split.
      * rewrite Htr'. unfold tk. cbn [created_at].
        rewrite lookup_app_r by lia.
        replace (S (List.length pre + 2 * k) - List.length pre)%nat with (S (2 * k)) by lia.
        by apply lookup_app_l_Some.
      * intros i r n Hi Hr.
        assert (i < created_at tk)%nat as Hlt.
        { eapply (sorted_lookup_lt _ _ _ _ _ (run_trace_sorted f w) Hi Hnew).
          rewrite (phase_registration _ Hr). cbn. lia. }
        split; [exact Hlt|]. unfold tick_time.
        assert (clock i <= clock (created_at tk))%Z by (apply Hclock; lia).
        unfold tk in *. cbn [created_at period] in *. nia.
    + intros c ticks. apply refresher_fetch_count.
  - rewrite Htr. cbn [app]. rewrite !Forall_app. done.
Qed.

Lemma one_refresh_task_per_log_witness :
  exists pre post,
    run_trace flags_static world_ok
    = (pre ++ refresh_events (List.length pre) (getSTHInterval flags_static)
                [logA; logB] ++ post)%list
    /\ Forall (fun e => is_refresh_start e = false) (pre ++ post)
    /\ (forall k c,
          [logA; logB] !! k = Some c ->
          let tk := {| created_at := List.length pre + 2 * k;
                       period := getSTHInterval flags_static |} in
          run_trace flags_static world_ok !! created_at tk
          = Some (EvNewTicker (getSTHInterval flags_static))
          /\ run_trace flags_static world_ok !! S (created_at tk)
             = Some (EvGo (GRefresher c tk))
          /\ forall i r n,
               run_trace flags_static world_ok !! i = Some r ->
               is_registration r = true ->
               (i < created_at tk)%nat
               /\ (Z.of_nat i * 1000 + getSTHInterval flags_static
                   <= tick_time (fun i => Z.of_nat i * 1000) tk n)%Z)
    /\ (forall c ticks,
          List.length (List.filter is_fetch (refresher_trace flags_static world_ok c ticks))
          = List.length ticks).
Proof.
  apply (one_refresh_task_per_log flags_static world_ok [logA; logB]
           (fun i => Z.of_nat i * 1000)%Z).
  - reflexivity.
  - intros i j Hij. lia.
Defined.

(** ** The static variant *)

Lemma rev_app_append (cur x y : string) :
  (String.rev_app cur x ++ y)%string = String.rev_app cur (x ++ y)%string.
Proof. revert x. induction cur as [|c cur IH]; intros x; [done|]. cbn. by rewrite IH. Qed.

Lemma split_from_not_nil (sep : ascii) (cur s : string) : split_from sep cur s <> [].
Proof.
  revert cur. induction s as [|c s IH]; intros cur; cbn; [done|].
  destruct (Ascii.eqb c sep); [done|apply IH].
Qed.

(** Joining the pieces with the separator gives the string back. *)
Lemma split_from_concat (sep : ascii) (cur s : string) :
  String.concat (String sep "") (split_from sep cur s) = String.rev_app cur s.
Proof.
  revert cur. induction s as [|c s IH]; intros cur; cbn [split_from].
  - reflexivity.
  - destruct (Ascii.eqb c sep) eqn:E.
    + apply Ascii.eqb_eq in E as ->.
      pose proof (split_from_not_nil sep "" s) as Hne.
      specialize (IH ""). cbn [String.concat].
      destruct (split_from sep "" s) as [|x xs]; [done|].
      rewrite IH. unfold String.rev. cbn [String.rev_app].
      by rewrite rev_app_append.
    + apply IH.
Qed.

Lemma has_char_rev_app (c : ascii) (cur x : string) :
  has_char c (String.rev_app cur x) = has_char c cur || has_char c x.
Proof.
  revert x. induction cur as [|c' cur IH]; intros x; [done|].
  cbn. rewrite IH. cbn. destruct (Ascii.eqb c' c), (has_char c cur); by cbn;
    rewrite ?orb_true_r.
Qed.

(** No piece holds the separator. *)
Lemma split_from_no_sep (sep : ascii) (cur s : string) :
  has_char sep cur = false ->
  Forall (fun a => has_char sep a = false) (split_from sep cur s).
Proof.
  revert cur. induction s as [|c s IH]; intros cur Hcur; cbn [split_from].
  - constructor; [|constructor]. unfold String.rev.
    by rewrite has_char_rev_app, Hcur.
  - destruct (Ascii.eqb c sep) eqn:E.
    + constructor; [|by apply IH]. unfold String.rev.
      by rewrite has_char_rev_app, Hcur.
    + apply IH. cbn. by rewrite E, Hcur.
Qed.

Ltac explicit_events :=
  repeat (constructor;
    [split; [reflexivity
            |intros t0 r0 Heq; try discriminate Heq; by injection Heq as <- <-]|]);
  constructor.

Lemma Run_static (f : Flags) (w : World) (tr : list Event)
    (mux : gmap string Handler) (code : Z) :
  Run f w tr mux code ->
  dynamic f = false ->
  Forall (fun e => is_etcd e = false
                   /\ forall t r, e = EvDial t r ->
                        t = rpcBackendFlag f /\ r = FixedBackendResolver) tr.
Proof.
  intros H Hdyn.
  set (P := fun e : Event => is_etcd e = false
                   /\ forall t r, e = EvDial t r ->
                        t = rpcBackendFlag f /\ r = FixedBackendResolver).
  assert (Hseg : forall a b l, seg a b l -> (2 < a)%nat -> (b < 8)%nat -> Forall P l).
  { intros a b l [_ Hf] Ha Hb. eapply Forall_impl; [exact Hf|].
    intros e He. cbn in He. split.
    - destruct e as [| | | |sv [[] ad]| | | | | | | |]; cbn in *; (done || lia).
    - intros t r ->. cbn in He. lia. }
  assert (Hpre : Forall P (tr_pre f)).
  { unfold tr_pre, resolver_of. rewrite Hdyn. cbn.
    explicit_events. }
  assert (Hdef : Forall P (tr_defers f)).
  { unfold tr_defers. rewrite Hdyn. explicit_events. }
  destruct H as
    [err _|cfg err _ Hd _|cfg e _ _|cfg ev m c e _ Hev _ _|cfg ev evm m _ Hev Hevm
    |cfg ev hs m sig _ (Hev & _) _ _|cfg ev hs m err _ (Hev & _) _ _].
  - explicit_events.
  - congruence.
  - apply Forall_app. split; [done|]. explicit_events.
  - apply Forall_app. split; [done|]. exact (Hseg _ _ _ (seg_const _ _ Hev) ltac:(lia) ltac:(lia)).
  - rewrite !Forall_app. split; [done|].
    split; [exact (Hseg _ _ _ (seg_const _ _ Hev) ltac:(lia) ltac:(lia))|].
    split; [|done]. destruct Hevm as [->| ->]; explicit_events.
  - rewrite !Forall_app. split; [done|].
    split; [exact (Hseg _ _ _ (seg_const _ _ Hev) ltac:(lia) ltac:(lia))|].
    exact (Hseg _ _ _ (seg_tr_after f w cfg _) ltac:(lia) ltac:(lia)).
  - rewrite !Forall_app. split; [done|].
    split; [exact (Hseg _ _ _ (seg_const _ _ Hev) ltac:(lia) ltac:(lia))|].
    split; [|done].
    exact (Hseg _ _ _ (seg_tr_after f w cfg _) ltac:(lia) ltac:(lia)).
Qed.

(** ** The answers of the directory updates are not looked at *)

Lemma main_ignores_updates (f : Flags) (w : World)
    (upd : string -> Update -> option error) :
  main f (with_Update upd w) initial = main f w initial.
Proof. rewrite !main_initial. reflexivity. Qed.

Lemma for_range_ext {A} (l : list A) (b1 b2 : A -> M unit) (s : State) :
  (forall x s', b1 x s' = b2 x s') -> for_range l b1 s = for_range l b2 s.
Proof.
  intros Hb. revert s. induction l as [|x l IH]; intros s; [reflexivity|].
  cbn [for_range]. rewrite !bind_run, Hb.
  destruct (b2 x s) as [s1 [u| |]]; [apply IH|reflexivity|reflexivity].
Qed.

Lemma run_defers_ignores_updates (w : World)
    (upd : string -> Update -> option error) (s : State) :
  run_defers (with_Update upd w) s = run_defers w s.
Proof.
  unfold run_defers. apply for_range_ext. intros d s'. by destruct d.
Qed.

Lemma run_defers_returns (w : World) (s : State) : snd (run_defers w s) = Ok tt.
Proof.
  unfold run_defers. generalize (deferred s) as ds. intros ds. revert s.
  induction ds as [|d ds IH]; intros s; [reflexivity|].
  cbn [for_range]. rewrite bind_run.
  destruct d; cbn; apply IH.
Qed.

Lemma process_ignores_updates (f : Flags) (w : World)
    (upd : string -> Update -> option error) :
  process f (with_Update upd w) = process f w.
Proof.
  unfold process. rewrite main_ignores_updates.
  destruct (main f w initial) as [s [u|code|msg]]; [|reflexivity|];
    by rewrite run_defers_ignores_updates.
Qed.

Lemma logs_error_reports (err : error) (tr : list Event) :
  logs_error err tr -> existsb (reports err) tr = true.
Proof.
  intros (sev & m & Hin & Hm). apply existsb_exists.
  exists (EvLog sev m). split; [done|]. cbn. rewrite Hm. apply String.eqb_refl.
Qed.

(** C8, as the specification states it, fails: when the directory refuses the
    retractions made at shutdown, no line of the log reports the error. *)
Lemma failed_retraction_leaves_no_log :
  ~ spec_retract_failure_logged flags_dynamic world_etcd_down.
Proof.
  intros H.
  assert (logs_error "etcdserver: request timed out"
            (run_trace flags_dynamic world_etcd_down)) as Hlog.
  { apply (H 25%nat "trillian-ctfe-http" {| Op := Delete; Addr := "localhost:6962" |});
      reflexivity. }
  apply logs_error_reports in Hlog.
  assert (existsb (reports "etcdserver: request timed out")
            (run_trace flags_dynamic world_etcd_down) = false) as Hno
    by (vm_compute; reflexivity).
  congruence.
Qed.

(** C8 (amended): a failure of a retraction at shutdown is not logged and is
    not fatal; it neither blocks nor fails the shutdown sequence.  In a run of
    the dynamic variant whose listener returned, whatever the directory
    answers to the updates (every update may fail): the run ends with the
    connection being closed, the log line that announces the first
    retraction, the first retraction, the log line that announces the second
    one, and the second retraction, which is therefore attempted after a
    failure of the first; these five events are the last ones, so that no log
    line follows a retraction that failed; the whole trace is the one of the
    run in which the directory answers as in [w]; and the status is 0. *)
Theorem retract_errors_are_discarded (f : Flags) (w : World)
    (upd : string -> Update -> option error) (err : error) :
  dynamic f = true ->
  serves f w = true ->
  serving w = ListenerReturned err ->
  exit_status f (with_Update upd w) = 0%Z
  /\ (exists pre,
        run_trace f (with_Update upd w) =
        (pre ++ [ EvConnClose;
                  EvLog INFO (MsgRemoving (etcdHTTPService f)
                                {| Op := Delete; Addr := httpEndpoint f |});
                  EvEtcdUpdate (etcdHTTPService f)
                    {| Op := Delete; Addr := httpEndpoint f |};
                  EvLog INFO (MsgRemoving (etcdMetricsService f)
                                {| Op := Delete; Addr := metricsAt f |});
                  EvEtcdUpdate (etcdMetricsService f)
                    {| Op := Delete; Addr := metricsAt f |} ])%list
        /\ Forall (fun e => is_conn_close e = false /\ is_retract e = false) pre)
  /\ run_trace f (with_Update upd w) = run_trace f w.
Proof.
  intros Hdyn Hserves Hs.
  unfold exit_status, run_trace. rewrite process_ignores_updates.
  fold (exit_status f w). fold (run_trace f w).
  destruct (serves_inv f w Hserves) as (cfg & ev & hs & _ & (Hev & _) & _ & Htr & Hex).
  rewrite Hs in Htr, Hex. split; [done|]. split; [|done].
  exists (tr_pre f ++ ev ++ tr_after f w cfg (List.length (tr_pre f ++ ev)))%list.
  split.
  - rewrite Htr. unfold tr_defers, tr_retract. rewrite Hdyn.
    by rewrite <- !app_assoc.
  - rewrite !Forall_app. split; [|split].
    + exact (seg_no_cleanup _ _ _ (seg_tr_pre f) ltac:(lia)).
    + exact (seg_no_cleanup _ _ _ (seg_const _ _ Hev) ltac:(lia)).
    + exact (seg_no_cleanup _ _ _ (seg_tr_after f w cfg _) ltac:(lia)).
Qed.

Lemma retract_errors_are_discarded_witness :
  GRPCResolver_Update world_etcd_down "trillian-ctfe-http"
    {| Op := Delete; Addr := "localhost:6962" |} = Some "etcdserver: request timed out"
  /\ exit_status flags_dynamic world_etcd_down = 0%Z
  /\ (exists pre,
        run_trace flags_dynamic world_etcd_down =
        (pre ++ [ EvConnClose;
                  EvLog INFO (MsgRemoving "trillian-ctfe-http"
                                {| Op := Delete; Addr := "localhost:6962" |});
                  EvEtcdUpdate "trillian-ctfe-http"
                    {| Op := Delete; Addr := "localhost:6962" |};
                  EvLog INFO (MsgRemoving "trillian-ctfe-metrics-http"
                                {| Op := Delete; Addr := "localhost:6963" |});
                  EvEtcdUpdate "trillian-ctfe-metrics-http"
                    {| Op := Delete; Addr := "localhost:6963" |} ])%list
        /\ Forall (fun e => is_conn_close e = false /\ is_retract e = false) pre)
  /\ run_trace flags_dynamic world_etcd_down = run_trace flags_dynamic world_ok.
Proof.
  split; [reflexivity|].
  apply (retract_errors_are_discarded flags_dynamic world_ok
           (fun _ _ => Some "etcdserver: request timed out")
           "listen tcp: address already in use"); reflexivity.
Defined.

(** Both announcements fail, and the process serves. *)
Example run_announce_fails_and_serves :
  GRPCResolver_Update world_etcd_down "trillian-ctfe-http"
    {| Op := Add; Addr := "localhost:6962" |} = Some "etcdserver: request timed out"
  /\ serves flags_dynamic world_etcd_down = true
  /\ existsb (reports "etcdserver: request timed out")
       (run_trace flags_dynamic world_etcd_down) = false.
Proof. vm_compute. repeat split; reflexivity. Qed.

(** * More of [main] *)

(** ** More runs *)

(** Dynamic variant, the backend cannot be dialled: the process has announced
    itself, exits with status 1, and retracts nothing. *)
Example run_dial_failure :
  run_trace flags_dynamic world_no_backend =
    [ EvCopyStandardLogTo WARNING; EvLog INFO MsgStarting;
      EvEtcdNew ["etcd1:2379"; "etcd2:2379"];
      EvLog INFO (MsgAnnouncing "trillian-ctfe-http"
                    {| Op := Add; Addr := "localhost:6962" |});
      EvEtcdUpdate "trillian-ctfe-http" {| Op := Add; Addr := "localhost:6962" |};
      EvLog INFO (MsgAnnouncing "trillian-ctfe-metrics-http"
                    {| Op := Add; Addr := "localhost:6963" |});
      EvEtcdUpdate "trillian-ctfe-metrics-http" {| Op := Add; Addr := "localhost:6963" |};
      EvDial "trillian-log" (GRPCResolver ["etcd1:2379"; "etcd2:2379"]);
      EvLog FATAL (MsgDialFailed "context deadline exceeded") ]
  /\ exit_status flags_dynamic world_no_backend = 1%Z.
Proof. vm_compute. split; reflexivity. Qed.

(** Dynamic variant, no etcd: nothing is announced and nothing is dialled. *)
Example run_etcd_failure :
  run_trace flags_dynamic world_no_etcd =
    [ EvCopyStandardLogTo WARNING; EvLog INFO MsgStarting;
      EvEtcdNew ["etcd1:2379"; "etcd2:2379"];
      EvLog FATAL (MsgEtcdConnectFailed "etcd1:2379,etcd2:2379"
                     "context deadline exceeded") ]
  /\ exit_status flags_dynamic world_no_etcd = 1%Z.
Proof. vm_compute. split; reflexivity. Qed.

(** No metrics endpoint, no refresh, a bound of 50 on get-entries: both
    announcements carry the HTTP endpoint, [/metrics] goes to the default
    router, and the only goroutine is [awaitSignal]. *)
Example run_shared_metrics :
  List.filter is_announce (run_trace flags_shared_metrics world_ok) =
    [ EvEtcdUpdate "trillian-ctfe-http" {| Op := Add; Addr := "localhost:6962" |};
      EvEtcdUpdate "trillian-ctfe-metrics-http" {| Op := Add; Addr := "localhost:6962" |} ]
  /\ firstn 4 (drop 14 (run_trace flags_shared_metrics world_ok)) =
     [ EvHandle "/metrics" HProm; EvGo GAwaitSignal;
       EvListenAndServe "localhost:6962";
       EvLog WARNING (MsgServerExited "listen tcp: address already in use") ]
  /\ MaxGetEntriesAllowed (fst (process flags_shared_metrics world_ok)) = 50%Z.
Proof. vm_compute. repeat split; reflexivity. Qed.

(** At verbosity 1 every tick is logged. *)
Example run_refresher_verbose :
  refresher_trace flags_shared_metrics world_flaky_fetch logB [5; 10]%Z =
    [ EvLog INFO (MsgStartGetSTH "b" 2);
      EvLog INFO (MsgTick 5 "b" 2); EvGetTreeHead 2 "b";
      EvLog INFO (MsgTick 10 "b" 2); EvGetTreeHead 2 "b";
      EvLog WARNING (MsgTreeHeadFailed "b" 2 "deadline exceeded") ].
Proof. vm_compute. reflexivity. Qed.

(** ** The run, step by step *)

(** The state in which the registration loop starts. *)
Lemma process_loop (f : Flags) (w : World) (cfg : list LogConfig) :
  LogConfigFromFile w (logConfigFlag f) = inr cfg ->
  (if dynamic f then clientv3_New w (etcd_endpoints f) else None) = None ->
  grpc_Dial w (rpcBackendFlag f) (resolver_of f) = None ->
  let s0 := st f (tr_pre f) (DeferConnClose :: ds_pre f) in
  exists s1 o1 ev,
    registerLoop f w cfg cfg s0 = (s1, o1)
    /\ s1 = set_mux (DefaultServeMux s1) (add_events ev s0)
    /\ Forall (fun e => phase e = 3%nat) ev
    /\ process f w =
       match o1 with
       | Exit code => (s1, code)
       | Panic _ => (add_events (tr_defers f) s1, 2%Z)
       | Ok _ =>
           let s2 := add_events (tr_after f w cfg (List.length (trace s1))) s1 in
           let ending (s : State) :=
             match serving w with
             | SignalReceived _ => (s, 1%Z)
             | ListenerReturned _ => (add_events (tr_defers f) s, 0%Z)
             end in
           if bool_decide (metricsAt f <> httpEndpoint f) then ending s2
           else match DefaultServeMux s1 !! "/metrics" with
                | Some _ =>
                    (add_events (tr_defers f)
                       (add_events [EvHandle "/metrics" HProm] s1), 2%Z)
                | None =>
                    ending (set_mux (<["/metrics" := HProm]> (DefaultServeMux s1)) s2)
                end
       end.
Proof.
  intros Hcfg Hnew Hdial s0.
  destruct (registerLoop_run f w cfg cfg s0) as (ev & Hst & Hev & _).
  cbn zeta in Hst.
  destruct (registerLoop f w cfg cfg s0) as [s1 o1] eqn:Hloop. cbn [fst snd] in Hst.
  exists s1, o1, ev. split; [done|]. split; [done|]. split; [done|].
  assert (Hd1 : deferred s1 = DeferConnClose :: ds_pre f) by (by rewrite Hst).
  unfold process. rewrite main_initial, Hcfg, Hnew, Hdial, bind_run.
  fold s0. rewrite Hloop.
  destruct o1 as [u|code|msg]; [|reflexivity|by rewrite (run_defers_run f)].
  rewrite main_tail_run. cbn zeta.
  change (tr_metrics f ++ tr_refresh f (S (List.length (trace s1))) cfg
          ++ tr_serve f w)%list
    with (tr_after f w cfg (List.length (trace s1))).
  unfold serve_outcome.
  destruct (bool_decide (metricsAt f <> httpEndpoint f)).
  - destruct (serving w); [reflexivity|]. by rewrite (run_defers_run f).
  - destruct (DefaultServeMux s1 !! "/metrics").
    + by rewrite (run_defers_run f).
    + destruct (serving w); [reflexivity|]. by rewrite (run_defers_run f).
Qed.

(** A run that does not reach the dial ends with status 1 after at most four
    events, none of them a dial, an announcement or a set-up. *)
Lemma process_no_dial (f : Flags) (w : World) :
  reaches_dial f w = false ->
  exists tr,
    process f w = (st f tr [], 1%Z)
    /\ Forall (fun e => is_dial e = false /\ is_announce e = false
                        /\ is_setup e = false /\ is_conn_close e = false
                        /\ is_retract e = false) tr
    /\ Forall (fun e => is_listen e = false
                        /\ forall eps, e = EvEtcdNew eps ->
                             dynamic f = true /\ eps = etcd_endpoints f) tr.
Proof.
  unfold reaches_dial, process. rewrite main_initial.
  destruct (LogConfigFromFile w (logConfigFlag f)) as [err|cfg].
  { intros _. eexists. split; [reflexivity|]. split; [repeat constructor|].
    constructor; [|constructor]. split; [reflexivity|]. intros eps Heq. discriminate Heq. }
  destruct (dynamic f) eqn:Hdyn; [|done].
  destruct (clientv3_New w (etcd_endpoints f)); [|done].
  intros _. eexists. split; [reflexivity|].
  split; [repeat constructor|].
  repeat (constructor; [split; [reflexivity|intros eps Heq; try discriminate Heq]|]);
    [|constructor].
  by injection Heq as <-.
Qed.

Lemma process_dial_failed (f : Flags) (w : World) (cfg : list LogConfig) (e : error) :
  LogConfigFromFile w (logConfigFlag f) = inr cfg ->
  (if dynamic f then clientv3_New w (etcd_endpoints f) else None) = None ->
  grpc_Dial w (rpcBackendFlag f) (resolver_of f) = Some e ->
  process f w = (st f (tr_pre f ++ [EvLog FATAL (MsgDialFailed e)]) (ds_pre f), 1%Z).
Proof.
  intros Hcfg Hnew Hdial. unfold process.
  by rewrite main_initial, Hcfg, Hnew, Hdial.
Qed.

Lemma reaches_dial_inv (f : Flags) (w : World) :
  reaches_dial f w = true ->
  exists cfg,
    LogConfigFromFile w (logConfigFlag f) = inr cfg
    /\ (if dynamic f then clientv3_New w (etcd_endpoints f) else None) = None.
Proof.
  unfold reaches_dial.
  destruct (LogConfigFromFile w (logConfigFlag f)) as [err|cfg]; [done|].
  destruct (if dynamic f then clientv3_New w (etcd_endpoints f) else None); [done|].
  intros _. by exists cfg.
Qed.

(** A run that reaches the dial: the trace up to the dial, a middle part with
    the steps from the dial to the end of serving, and the deferred calls
    unless the process left through [os.Exit]. *)
Lemma run_parts (f : Flags) (w : World) :
  reaches_dial f w = true ->
  exists mid,
    run_trace f w
    = (tr_pre f ++ mid
       ++ (if (exit_status f w =? 1)%Z then [] else tr_defers f))%list
    /\ seg 2 6 mid
    /\ Forall (fun e => is_dial e = false) mid.
Proof.
  intros Hreach. destruct (reaches_dial_inv f w Hreach) as (cfg0 & Hcfg0 & Hnew0).
  assert (Hnd : forall a b l, seg a b l -> (2 < a)%nat ->
            Forall (fun e => is_dial e = false) l).
  { intros a b l [_ Hf] Ha. eapply Forall_impl; [exact Hf|]. intros e He.
    cbn in He. destruct e; try done. cbn in He. lia. }
  generalize (process_run f w).
  generalize (run_trace f w) (final_mux f w) (exit_status f w).
  intros tr mux code H. destruct H as
    [err Hc|cfg err _ Hd Hn|cfg e _ _|cfg ev m c e _ Hev _ _|cfg ev evm m _ Hev Hevm
    |cfg ev hs m sig _ (Hev & _) _ _|cfg ev hs m err _ (Hev & _) _ _].
  - congruence.
  - rewrite Hd in Hnew0. congruence.
  - exists [EvLog FATAL (MsgDialFailed e)]. cbn [Z.eqb Pos.eqb app].
    split; [done|]. split; [|repeat constructor].
    apply (seg_weaken 2 2); [apply seg_const; repeat constructor|lia|lia].
  - exists ev. cbn [Z.eqb Pos.eqb]. rewrite app_nil_r. split; [done|]. split.
    + exact (seg_weaken _ _ 2 6 _ (seg_const _ _ Hev) ltac:(lia) ltac:(lia)).
    + exact (Hnd _ _ _ (seg_const _ _ Hev) ltac:(lia)).
  - exists (ev ++ evm)%list. cbn [Z.eqb Pos.eqb]. rewrite <- app_assoc.
    split; [done|].
    assert (seg 4 4 evm) as H4
      by (destruct Hevm as [->| ->]; [apply seg_nil|apply seg_const; repeat constructor]).
    split.
    + exact (seg_weaken _ _ 2 6 _
               (seg_app _ _ _ _ _ _ (seg_const _ _ Hev) H4 ltac:(lia))
               ltac:(lia) ltac:(lia)).
    + apply Forall_app. split.
      * exact (Hnd _ _ _ (seg_const _ _ Hev) ltac:(lia)).
      * exact (Hnd _ _ _ H4 ltac:(lia)).
  - exists (ev ++ tr_after f w cfg (List.length (tr_pre f ++ ev)))%list.
    cbn [Z.eqb Pos.eqb]. rewrite app_nil_r. split; [done|]. split.
    + exact (seg_weaken _ _ 2 6 _
               (seg_app _ _ _ _ _ _ (seg_const _ _ Hev) (seg_tr_after f w cfg _) ltac:(lia))
               ltac:(lia) ltac:(lia)).
    + apply Forall_app. split.
      * exact (Hnd _ _ _ (seg_const _ _ Hev) ltac:(lia)).
      * exact (Hnd _ _ _ (seg_tr_after f w cfg _) ltac:(lia)).
  - exists (ev ++ tr_after f w cfg (List.length (tr_pre f ++ ev)))%list.
    cbn [Z.eqb]. rewrite <- app_assoc. split; [done|]. split.
    + exact (seg_weaken _ _ 2 6 _
               (seg_app _ _ _ _ _ _ (seg_const _ _ Hev) (seg_tr_after f w cfg _) ltac:(lia))
               ltac:(lia) ltac:(lia)).
    + apply Forall_app. split.
      * exact (Hnd _ _ _ (seg_const _ _ Hev) ltac:(lia)).
      * exact (Hnd _ _ _ (seg_tr_after f w cfg _) ltac:(lia)).
Qed.

Lemma filter_false {A} (p : A -> bool) (l : list A) :
  Forall (fun x => p x = false) l -> List.filter p l = [].
Proof. induction 1 as [|x l Hx _ IH]; [done|]. cbn. by rewrite Hx. Qed.

Lemma seg_no_announce (a b : nat) (l : list Event) :
  seg a b l -> (1 < a)%nat -> Forall (fun e => is_announce e = false) l.
Proof.
  intros [_ Hf] Ha. eapply Forall_impl; [exact Hf|]. intros e He. cbn in He.
  destruct e as [| | | |sv [[] ad]| | | | | | | |]; cbn in *; (done || lia).
Qed.

(** ** The bound on get-entries *)

(** X1: [--max_get_entries] overrides [ctfe.MaxGetEntriesAllowed] only when it
    is positive; with 0 or a negative value the default stays.  The override
    is made before anything can fail, so it holds at the end of every run,
    and nothing else in [main] changes the bound. *)
Theorem max_get_entries_override (f : Flags) (w : World) :
  MaxGetEntriesAllowed (fst (process f w)) =
  if (0 <? maxGetEntriesFlag f)%Z then maxGetEntriesFlag f
  else MaxGetEntriesAllowed initial.
Proof.
  destruct (reaches_dial f w) eqn:Hreach.
  2:{ by destruct (process_no_dial f w Hreach) as (tr & -> & _). }
  destruct (reaches_dial_inv f w Hreach) as (cfg & Hcfg & Hnew).
  destruct (grpc_Dial w (rpcBackendFlag f) (resolver_of f)) as [e|] eqn:Hdial.
  { by rewrite (process_dial_failed f w cfg e). }
  destruct (process_loop f w cfg Hcfg Hnew Hdial) as (s1 & o1 & ev & _ & Hst & _ & ->).
  assert (MaxGetEntriesAllowed s1 =
          if (0 <? maxGetEntriesFlag f)%Z then maxGetEntriesFlag f
          else MaxGetEntriesAllowed initial) as H1 by (by rewrite Hst).
  destruct o1 as [u|code|msg]; [|done|done].
  cbn zeta. destruct (bool_decide (metricsAt f <> httpEndpoint f)).
  - by destruct (serving w).
  - destruct (DefaultServeMux s1 !! "/metrics"); [done|]. by destruct (serving w).
Qed.

(** ** The backend connection *)

(** X2: a run dials the backend at most once: exactly once when the
    configuration was read and, in the dynamic variant, the etcd client was
    created, and then on [--log_rpc_server] with the resolver of the variant;
    otherwise not at all. *)
Theorem one_backend_dial (f : Flags) (w : World) :
  List.filter is_dial (run_trace f w) =
  if reaches_dial f w then [EvDial (rpcBackendFlag f) (resolver_of f)] else [].
Proof.
  destruct (reaches_dial f w) eqn:Hreach.
  - destruct (run_parts f w Hreach) as (mid & -> & _ & Hnd).
    rewrite !List.filter_app, (filter_false _ _ Hnd).
    assert (List.filter is_dial (tr_pre f) = [EvDial (rpcBackendFlag f) (resolver_of f)])
      as -> by (unfold tr_pre, tr_announce; by destruct (dynamic f)).
    destruct (exit_status f w =? 1)%Z; [done|].
    unfold tr_defers, tr_retract. by destruct (dynamic f).
  - destruct (process_no_dial f w Hreach) as (tr & Hp & Hf & _).
    unfold run_trace. rewrite Hp. cbn [fst trace st]. apply filter_false.
    eapply Forall_impl; [exact Hf|]. by intros e (? & _).
Qed.

(** ** Deferred calls *)

(** X3: the deferred calls run exactly when the process does not leave through
    [os.Exit].  A run that ends with status 1 (a fatal start-up error, or a
    signal) closes no connection and retracts nothing, also when it has
    announced itself before; a run that ends with another status (the listener
    returned, or [http.Handle] panicked) ends with the deferred calls: the
    connection is closed, then, in the dynamic variant, the two retractions
    are attempted, and nothing before that closes or retracts. *)
Theorem deferred_calls_run_unless_os_exit (f : Flags) (w : World) :
  if (exit_status f w =? 1)%Z
  then Forall (fun e => is_conn_close e = false /\ is_retract e = false)
         (run_trace f w)
  else exists pre,
         run_trace f w = (pre ++ tr_defers f)%list
         /\ Forall (fun e => is_conn_close e = false /\ is_retract e = false) pre.
Proof.
  destruct (reaches_dial f w) eqn:Hreach.
  - destruct (run_parts f w Hreach) as (mid & Htr & Hmid & _).
    pose proof (seg_no_cleanup _ _ _ (seg_tr_pre f) ltac:(lia)) as H1.
    pose proof (seg_no_cleanup _ _ _ Hmid ltac:(lia)) as H2.
    destruct (exit_status f w =? 1)%Z.
    + rewrite Htr, app_nil_r. by apply Forall_app.
    + exists (tr_pre f ++ mid)%list. split; [by rewrite Htr, app_assoc|].
      by apply Forall_app.
  - destruct (process_no_dial f w Hreach) as (tr & Hp & Hf & _).
    unfold exit_status, run_trace. rewrite Hp. cbn.
    eapply Forall_impl; [exact Hf|]. by intros e (_ & _ & _ & ? & ?).
Qed.

(** ** Announcements and retractions *)

(** X4: the announcements of a run.  In the dynamic variant, once the
    configuration is read and the etcd client exists, exactly two
    announcements are made, in this order: the HTTP endpoint under the HTTP
    service name, then the metrics address (the HTTP endpoint again when
    [--metrics_endpoint] is empty) under the metrics service name.  In every
    other run there is none. *)
Theorem announcements_of_a_run (f : Flags) (w : World) :
  List.filter is_announce (run_trace f w) =
  if dynamic f && reaches_dial f w
  then [ EvEtcdUpdate (etcdHTTPService f) {| Op := Add; Addr := httpEndpoint f |};
         EvEtcdUpdate (etcdMetricsService f)
           {| Op := Add;
              Addr := if bool_decide (metricsEndpoint f = "") then httpEndpoint f
                      else metricsEndpoint f |} ]
  else [].
Proof.
  destruct (reaches_dial f w) eqn:Hreach.
  - destruct (run_parts f w Hreach) as (mid & -> & Hmid & _).
    rewrite !List.filter_app,
      (filter_false _ _ (seg_no_announce _ _ _ Hmid ltac:(lia))).
    assert (List.filter is_announce
              (if (exit_status f w =? 1)%Z then [] else tr_defers f) = []) as ->.
    { destruct (exit_status f w =? 1)%Z; [done|].
      apply filter_false. exact (seg_no_announce _ _ _ (seg_tr_defers f) ltac:(lia)). }
    unfold tr_pre, tr_announce. by destruct (dynamic f).
  - rewrite andb_false_r.
    destruct (process_no_dial f w Hreach) as (tr & Hp & Hf & _).
    unfold run_trace. rewrite Hp. cbn [fst trace st]. apply filter_false.
    eapply Forall_impl; [exact Hf|]. by intros e (_ & ? & _).
Qed.

(** X5: retractions mirror announcements.  When the deferred calls run (the
    status is not 1), every announcement of the run is retracted, under the
    same service name and with the same address, in the same order, and
    nothing else is retracted; when the process leaves through [os.Exit]
    (status 1) nothing is retracted and what was announced stays. *)
Theorem retractions_mirror_announcements (f : Flags) (w : World) :
  List.filter is_retract (run_trace f w) =
  if (exit_status f w =? 1)%Z then []
  else List.map retraction_of (List.filter is_announce (run_trace f w)).
Proof.
  destruct (reaches_dial f w) eqn:Hreach.
  - destruct (run_parts f w Hreach) as (mid & -> & Hmid & _).
    pose proof (seg_no_cleanup _ _ _ (seg_tr_pre f) ltac:(lia)) as H1.
    pose proof (seg_no_cleanup _ _ _ Hmid ltac:(lia)) as H2.
    assert (Hr : forall l,
              Forall (fun e => is_conn_close e = false /\ is_retract e = false) l ->
              List.filter is_retract l = []).
    { intros l Hl. apply filter_false. eapply Forall_impl; [exact Hl|].
      by intros e [_ ?]. }
    rewrite !List.filter_app, (Hr _ H1), (Hr _ H2),
      (filter_false _ _ (seg_no_announce _ _ _ Hmid ltac:(lia))).
    destruct (exit_status f w =? 1)%Z; [done|].
    rewrite (filter_false is_announce (tr_defers f))
      by exact (seg_no_announce _ _ _ (seg_tr_defers f) ltac:(lia)).
    unfold tr_pre, tr_announce, tr_defers, tr_retract. by destruct (dynamic f).
  - destruct (process_no_dial f w Hreach) as (tr & Hp & Hf & _).
    unfold exit_status, run_trace. rewrite Hp. cbn. apply filter_false.
    eapply Forall_impl; [exact Hf|]. by intros e (_ & _ & _ & _ & ?).
Qed.

(** ** From the registration loop to the end of the run *)

Lemma loop_trace (f : Flags) (w : World) (cfg : list LogConfig) :
  LogConfigFromFile w (logConfigFlag f) = inr cfg ->
  (if dynamic f then clientv3_New w (etcd_endpoints f) else None) = None ->
  grpc_Dial w (rpcBackendFlag f) (resolver_of f) = None ->
  exists s1 o1 ev extra,
    registerLoop f w cfg cfg (st f (tr_pre f) (DeferConnClose :: ds_pre f)) = (s1, o1)
    /\ trace s1 = (tr_pre f ++ ev)%list
    /\ run_trace f w = (tr_pre f ++ ev ++ extra)%list
    /\ seg 4 8 extra
    /\ (existsb is_listen extra = true ->
        o1 = Ok tt
        /\ (metricsAt f = httpEndpoint f -> DefaultServeMux s1 !! "/metrics" = None)).
Proof.
  intros Hcfg Hnew Hdial.
  destruct (process_loop f w cfg Hcfg Hnew Hdial)
    as (s1 & o1 & ev & Hloop & Hst & Hev & Hp).
  assert (Ht1 : trace s1 = (tr_pre f ++ ev)%list) by (by rewrite Hst).
  assert (Hser : forall s : State, trace s = (trace s1 ++ tr_after f w cfg
                                       (List.length (trace s1)))%list ->
            exists extra,
              trace (fst (match serving w with
                          | SignalReceived _ => (s, 1%Z)
                          | ListenerReturned _ => (add_events (tr_defers f) s, 0%Z)
                          end)) = (tr_pre f ++ ev ++ extra)%list
              /\ seg 4 8 extra).
  { intros s Hs. destruct (serving w).
    - exists (tr_after f w cfg (List.length (trace s1))). cbn [fst].
      rewrite Hs, Ht1, <- app_assoc. split; [done|].
      exact (seg_weaken _ _ 4 8 _ (seg_tr_after f w cfg _) ltac:(lia) ltac:(lia)).
    - exists (tr_after f w cfg (List.length (trace s1)) ++ tr_defers f)%list.
      cbn [fst trace add_events]. rewrite Hs, Ht1, <- !app_assoc. split; [done|].
      exact (seg_weaken _ _ 4 8 _
               (seg_app _ _ _ _ _ _ (seg_tr_after f w cfg _) (seg_tr_defers f) ltac:(lia))
               ltac:(lia) ltac:(lia)). }
  exists s1, o1, ev. unfold run_trace. rewrite Hp.
  destruct o1 as [[]|code|msg].
  - cbn zeta. destruct (bool_decide (metricsAt f <> httpEndpoint f)) eqn:Hm.
    + apply bool_decide_eq_true in Hm.
      destruct (Hser (add_events (tr_after f w cfg (List.length (trace s1))) s1) eq_refl)
        as (extra & Htr & Hseg).
      exists extra. split; [done|]. split; [done|]. split; [done|]. split; [done|].
      intros _. split; [done|]. intros Heq. by destruct Hm.
    + destruct (DefaultServeMux s1 !! "/metrics") eqn:Hl.
      * exists ([EvHandle "/metrics" HProm] ++ tr_defers f)%list.
        split; [done|]. split; [done|].
        split; [cbn [fst trace add_events]; by rewrite Ht1, <- !app_assoc|].
        assert (seg 4 4 [EvHandle "/metrics" HProm]) as H4
          by (apply seg_const; repeat constructor).
        pose proof (seg_app _ _ _ _ _ _ H4 (seg_tr_defers f) ltac:(lia)) as H48.
        split; [exact H48|].
        rewrite existsb_app, (seg_no_listen _ _ _ (seg_tr_defers f)) by lia. done.
      * destruct (Hser (set_mux (<["/metrics" := HProm]> (DefaultServeMux s1))
                          (add_events (tr_after f w cfg (List.length (trace s1))) s1))
                    eq_refl) as (extra & Htr & Hseg).
        exists extra. split; [done|]. split; [done|]. split; [done|]. split; [done|].
        intros _. split; [done|]. by intros _.
  - exists []. split; [done|]. split; [done|].
    split; [cbn [fst]; by rewrite Ht1, app_nil_r|]. split; [apply seg_nil|done].
  - exists (tr_defers f). split; [done|]. split; [done|].
    split; [cbn [fst trace add_events]; by rewrite Ht1, <- app_assoc|].
    split; [exact (seg_weaken _ _ 4 8 _ (seg_tr_defers f) ltac:(lia) ltac:(lia))|].
    by rewrite (seg_no_listen _ _ _ (seg_tr_defers f)) by lia.
Qed.

(** A run that serves has come through a registration loop that ended well. *)
Lemma serves_loop_ok (f : Flags) (w : World) :
  serves f w = true ->
  exists cfg s1,
    LogConfigFromFile w (logConfigFlag f) = inr cfg
    /\ registerLoop f w cfg cfg (st f (tr_pre f) (DeferConnClose :: ds_pre f))
       = (s1, Ok tt)
    /\ (metricsAt f = httpEndpoint f -> DefaultServeMux s1 !! "/metrics" = None).
Proof.
  intros Hserves. unfold serves in Hserves.
  destruct (reaches_dial f w) eqn:Hreach.
  2:{ destruct (process_no_dial f w Hreach) as (tr & Hp & _ & Hf).
      unfold run_trace in Hserves. rewrite Hp in Hserves. cbn [fst trace st] in Hserves.
      apply existsb_exists in Hserves as (e & Hin & He).
      rewrite Forall_forall in Hf. apply list_elem_of_In, Hf in Hin as [Hin _].
      congruence. }
  destruct (reaches_dial_inv f w Hreach) as (cfg & Hcfg & Hnew).
  destruct (grpc_Dial w (rpcBackendFlag f) (resolver_of f)) as [e|] eqn:Hdial.
  { unfold run_trace in Hserves.
    rewrite (process_dial_failed f w cfg e Hcfg Hnew Hdial) in Hserves.
    cbn [fst trace st] in Hserves.
    rewrite existsb_app, (seg_no_listen _ _ _ (seg_tr_pre f)) in Hserves by lia.
    done. }
  destruct (loop_trace f w cfg Hcfg Hnew Hdial)
    as (s1 & o1 & ev & extra & Hloop & Ht1 & Htr & Hseg & Hok).
  pose proof (registerLoop_run f w cfg cfg (st f (tr_pre f) (DeferConnClose :: ds_pre f)))
    as (ev' & Hst & Hev & _).
  rewrite Hloop in Hst. cbn [fst] in Hst.
  assert (ev' = ev) as ->.
  { apply (app_inv_head (tr_pre f)). rewrite <- Ht1. by rewrite Hst at 1. }
  rewrite Htr, !existsb_app, (seg_no_listen _ _ _ (seg_tr_pre f)),
    (seg_no_listen _ _ _ (seg_const _ _ Hev)) in Hserves by lia.
  cbn [orb] in Hserves. destruct (Hok Hserves) as [-> Hm].
  by exists cfg, s1.
Qed.

(** ** Where the metrics are served *)

Lemma seg_no_metrics_go (a b : nat) (l : list Event) :
  seg a b l -> (b < 4 \/ 4 < a)%nat -> List.filter is_metrics_go l = [].
Proof.
  intros [_ Hf] Hab. apply filter_false. eapply Forall_impl; [exact Hf|].
  intros e He. cbn in He. destruct e as [| | | | | | | | | |[]| |]; cbn in *; (done || lia).
Qed.

(** X6: where [/metrics] is served, in a run that serves.  When the metrics
    address is the HTTP endpoint (also when [--metrics_endpoint] is empty),
    [/metrics] is installed in the default router with the Prometheus handler
    and no metrics server is started; otherwise exactly one metrics server
    goroutine is started, on the metrics address, and the Prometheus handler is
    not in the default router. *)
Theorem metrics_placement (f : Flags) (w : World) :
  serves f w = true ->
  if bool_decide (metricsAt f = httpEndpoint f)
  then final_mux f w !! "/metrics" = Some HProm
       /\ List.filter is_metrics_go (run_trace f w) = []
  else final_mux f w !! "/metrics" <> Some HProm
       /\ List.filter is_metrics_go (run_trace f w)
          = [EvGo (GMetricsServer (metricsAt f))].
Proof.
  intros Hserves.
  destruct (serves_inv f w Hserves)
    as (cfg & ev & hs & _ & (Hev & _) & Hroutes & Htr & _).
  assert (Htail : List.filter is_metrics_go
                    (match serving w with
                     | SignalReceived _ => []
                     | ListenerReturned _ => tr_defers f
                     end) = []).
  { destruct (serving w); [done|].
    exact (seg_no_metrics_go _ _ _ (seg_tr_defers f) ltac:(lia)). }
  assert (Hgo : List.filter is_metrics_go (run_trace f w)
                = List.filter is_metrics_go (tr_metrics f)).
  { rewrite Htr. unfold tr_after. rewrite !List.filter_app, Htail.
    rewrite (seg_no_metrics_go _ _ _ (seg_tr_pre f)) by lia.
    rewrite (seg_no_metrics_go _ _ _ (seg_const _ _ Hev)) by lia.
    rewrite (seg_no_metrics_go _ _ _ (seg_const _ _ (tr_refresh_phase f _ cfg))) by lia.
    rewrite (seg_no_metrics_go _ _ _ (seg_const _ _ (tr_serve_phase f w))) by lia.
    by rewrite !app_nil_r. }
  rewrite Hgo. unfold tr_metrics. specialize (Hroutes "/metrics" HProm).
  case_bool_decide as Heq.
  - rewrite bool_decide_eq_false_2 by (by intros ?). split; [|done].
    apply Hroutes. by right.
  - rewrite bool_decide_eq_true_2 by done. split; [|done].
    intros Hl. apply Hroutes in Hl as [(hc & a & _ & _ & Hh)|(? & _)]; [done|done].
Qed.

Lemma metrics_placement_witness :
  final_mux flags_shared_metrics world_ok !! "/metrics" = Some HProm
  /\ List.filter is_metrics_go (run_trace flags_shared_metrics world_ok) = [].
Proof. apply (metrics_placement flags_shared_metrics world_ok). reflexivity. Defined.

(** ** Flushing the log *)

Lemma seg_no_flush (a b : nat) (l : list Event) :
  seg a b l -> (b < 6 \/ 6 < a)%nat -> List.filter is_flush l = [].
Proof.
  intros [_ Hf] Hab. apply filter_false. eapply Forall_impl; [exact Hf|].
  intros e He. cbn in He. destruct e; cbn in *; (done || lia).
Qed.

(** X7: a run that serves calls [glog.Flush] exactly once, right after the
    warning that tells how serving ended (the signal received, or the error of
    the listener).  After a signal the flush is the last thing the process
    does; when the listener returned, the deferred calls, with the log lines
    of the retractions, come after the flush. *)
Theorem log_flushed_once_when_serving_ends (f : Flags) (w : World) :
  serves f w = true ->
  List.filter is_flush (run_trace f w) = [EvFlush]
  /\ exists pre,
      run_trace f w =
      (pre ++ EvListenAndServe (httpEndpoint f)
           :: match serving w with
              | SignalReceived sig => [EvLog WARNING (MsgSignalReceived sig); EvFlush]
              | ListenerReturned err =>
                  EvLog WARNING (MsgServerExited err) :: EvFlush :: tr_defers f
              end)%list.
Proof.
  intros Hserves.
  destruct (serves_inv f w Hserves)
    as (cfg & ev & hs & _ & (Hev & _) & _ & Htr & _).
  rewrite Htr. unfold tr_after, tr_serve. split.
  - rewrite !List.filter_app.
    rewrite (seg_no_flush _ _ _ (seg_tr_pre f)) by lia.
    rewrite (seg_no_flush _ _ _ (seg_const _ _ Hev)) by lia.
    rewrite (seg_no_flush _ _ _ (seg_const _ _ (tr_metrics_phase f))) by lia.
    rewrite (seg_no_flush _ _ _ (seg_const _ _ (tr_refresh_phase f _ cfg))) by lia.
    destruct (serving w); [done|].
    by rewrite (seg_no_flush _ _ _ (seg_tr_defers f)) by lia.
  - exists (tr_pre f ++ ev ++ tr_metrics f
            ++ tr_refresh f (S (List.length (tr_pre f ++ ev))) cfg
            ++ [EvGo GAwaitSignal])%list.
    rewrite <- !app_assoc. cbn [app]. destruct (serving w); by rewrite ?app_nil_r.
Qed.

Lemma log_flushed_once_when_serving_ends_witness :
  List.filter is_flush (run_trace flags_dynamic world_ok) = [EvFlush]
  /\ exists pre,
      run_trace flags_dynamic world_ok =
      (pre ++ [ EvListenAndServe "localhost:6962";
                EvLog WARNING (MsgServerExited "listen tcp: address already in use");
                EvFlush ] ++ tr_defers flags_dynamic)%list.
Proof.
  apply (log_flushed_once_when_serving_ends flags_dynamic world_ok). reflexivity.
Defined.

(** ** Paths that collide *)

(** The inner loop ends well only on paths that are not empty and not yet in
    the router. *)
Lemma handle_loop_fresh (l : list (string * AppHandler)) (s : State) :
  snd (for_range l (fun ph => http_Handle (fst ph) (HApp (snd ph))) s) = Ok tt ->
  forall p a, (p, a) ∈ l -> p <> "" /\ DefaultServeMux s !! p = None.
Proof.
  revert s. induction l as [|[p0 a0] l IH]; intros s Hok p a Hin.
  { by apply elem_of_nil in Hin. }
  cbn [for_range] in Hok. rewrite bind_run, http_Handle_run in Hok. cbn [fst snd] in Hok.
  destruct (bool_decide (p0 = "")) eqn:Hp0; [done|].
  apply bool_decide_eq_false in Hp0.
  destruct (DefaultServeMux s !! p0) eqn:Hl; [done|].
  apply elem_of_cons in Hin as [Heq|Hin].
  - by simplify_eq.
  - destruct (IH _ Hok p a Hin) as [Hne Hnone]. split; [done|].
    cbn [DefaultServeMux set_mux add_events] in Hnone.
    destruct (decide (p0 = p)) as [->|Hd].
    + by rewrite lookup_insert_eq in Hnone.
    + by rewrite lookup_insert_ne in Hnone.
Qed.

(** The registration loop ends well only when the paths of every log are not
    empty, are not in the router already, and are not paths of an earlier
    log. *)
Lemma registerLoop_fresh (f : Flags) (w : World) (cfg cs : list LogConfig) (s : State) :
  snd (registerLoop f w cfg cs s) = Ok tt ->
  (forall i c h p,
      cs !! i = Some c -> SetUpInstance w c (rpcDeadlineFlag f) = inr h ->
      is_Some (h !! p) -> p <> "" /\ DefaultServeMux s !! p = None)
  /\ (forall i j ci cj hi hj p,
        (i < j)%nat -> cs !! i = Some ci -> cs !! j = Some cj ->
        SetUpInstance w ci (rpcDeadlineFlag f) = inr hi ->
        SetUpInstance w cj (rpcDeadlineFlag f) = inr hj ->
        is_Some (hi !! p) -> hj !! p = None).
Proof.
  revert s. induction cs as [|c cs IH]; intros s Hok.
  { split; intros; by rewrite lookup_nil in *. }
  unfold registerLoop in *. cbn [for_range] in Hok.
  rewrite !bind_run, emit_run in Hok.
  destruct (SetUpInstance w c (rpcDeadlineFlag f)) as [e|hc] eqn:E; [done|].
  rewrite ret_bind in Hok.
  set (s1 := add_events [EvSetUpInstance c] s) in Hok.
  pose proof (handle_loop_fresh (map_to_list hc) s1) as Hfresh.
  pose proof (handle_loop_run (map_to_list hc) s1) as (ev1 & _ & _ & Hmux). cbn zeta in Hmux.
  destruct (for_range (map_to_list hc) _ s1) as [s2 o2]. cbn [fst snd] in *.
  destruct o2 as [[]| |]; [|done|done].
  specialize (Hfresh eq_refl). destruct (IH s2 Hok) as [IH1 IH2].
  assert (Hsub : forall p, DefaultServeMux s2 !! p = None -> DefaultServeMux s !! p = None).
  { intros p Hn. destruct (DefaultServeMux s !! p) as [h|] eqn:Hl; [|done].
    assert (DefaultServeMux s2 !! p = Some h) as Hc by (apply Hmux; by left).
    congruence. }
  split.
  - intros [|i] c' h p Hc' Hh Hp; cbn in Hc'.
    + simplify_eq. assert (h = hc) as -> by congruence. destruct Hp as [a Ha].
      apply (Hfresh p a). by apply elem_of_map_to_list.
    + destruct (IH1 i c' h p Hc' Hh Hp) as [Hne Hn]. split; [done|]. by apply Hsub.
  - intros [|i] [|j] ci cj hi hj p Hij Hci Hcj Hhi Hhj Hp; cbn in Hci, Hcj; try lia.
    + simplify_eq. assert (hi = hc) as -> by congruence. destruct Hp as [a Ha].
      destruct (hj !! p) as [a'|] eqn:Hj; [|done].
      destruct (IH1 j cj hj p Hcj Hhj ltac:(by eexists)) as [_ Hn].
      assert (DefaultServeMux s2 !! p = Some (HApp a)) as Hc.
      { apply Hmux. right. exists a. split; [|done]. by apply elem_of_map_to_list. }
      congruence.
    + apply (IH2 i j ci cj hi hj p); (done || lia).
Qed.

(** X8: a run serves only when the paths of the logs do not collide.  In a
    run that serves, the handler maps of two different configured logs share
    no path, no log has the empty path, and when the metrics are on the main
    listener no log has the path [/metrics]: with any of these [http.Handle]
    panics before a listener is started. *)
Theorem served_paths_do_not_collide (f : Flags) (w : World) (cfg : list LogConfig) :
  LogConfigFromFile w (logConfigFlag f) = inr cfg ->
  serves f w = true ->
  (forall i j ci cj hi hj p,
      i <> j -> cfg !! i = Some ci -> cfg !! j = Some cj ->
      SetUpInstance w ci (rpcDeadlineFlag f) = inr hi ->
      SetUpInstance w cj (rpcDeadlineFlag f) = inr hj ->
      is_Some (hi !! p) -> hj !! p = None)
  /\ (forall i c h,
        cfg !! i = Some c -> SetUpInstance w c (rpcDeadlineFlag f) = inr h ->
        h !! "" = None
        /\ (metricsAt f = httpEndpoint f -> h !! "/metrics" = None)).
Proof.
  intros Hcfg Hserves.
  destruct (serves_loop_ok f w Hserves) as (cfg' & s1 & Hcfg' & Hloop & Hmetrics).
  rewrite Hcfg in Hcfg'. injection Hcfg' as <-.
  set (s0 := st f (tr_pre f) (DeferConnClose :: ds_pre f)) in *.
  destruct (registerLoop_fresh f w cfg cfg s0) as [H1 H2]; [by rewrite Hloop|].
  pose proof (registerLoop_run f w cfg cfg s0) as (ev & _ & _ & Hout).
  rewrite Hloop in Hout. cbn [fst snd] in Hout.
  destruct Hout as (_ & hs & Hhs & Hmux).
  split.
  - intros i j ci cj hi hj p Hij Hci Hcj Hhi Hhj Hp.
    destruct (Nat.lt_total i j) as [Hlt|[->|Hgt]]; [|done|].
    + by apply (H2 i j ci cj hi hj p).
    + destruct (hj !! p) as [a|] eqn:Hj; [|done]. destruct Hp as [a' Ha'].
      assert (hi !! p = None) as Hn
        by (apply (H2 j i cj ci hj hi p); (done || by eexists)).
      congruence.
  - intros i c h Hc Hh. split.
    + destruct (h !! "") as [a|] eqn:Ha; [|done].
      by destruct (H1 i c h "" Hc Hh ltac:(by eexists)) as [Hne _].
    + intros Heq. destruct (h !! "/metrics") as [a|] eqn:Ha; [|done].
      destruct (Forall2_lookup_l _ _ _ _ _ Hhs Hc) as (h' & Hin & Hh').
      assert (h' = h) as -> by congruence.
      assert (DefaultServeMux s1 !! "/metrics" = Some (HApp a)) as Hc1.
      { apply Hmux. right. exists h, a. split; [by eapply list_elem_of_lookup_2|done]. }
      rewrite (Hmetrics Heq) in Hc1. done.
Qed.

Lemma served_paths_do_not_collide_witness :
  (forall i j ci cj hi hj p,
      i <> j -> [logA; logB] !! i = Some ci -> [logA; logB] !! j = Some cj ->
      SetUpInstance world_ok ci (rpcDeadlineFlag flags_shared_metrics) = inr hi ->
      SetUpInstance world_ok cj (rpcDeadlineFlag flags_shared_metrics) = inr hj ->
      is_Some (hi !! p) -> hj !! p = None)
  /\ (forall i c h,
        [logA; logB] !! i = Some c ->
        SetUpInstance world_ok c (rpcDeadlineFlag flags_shared_metrics) = inr h ->
        h !! "" = None
        /\ (metricsAt flags_shared_metrics = httpEndpoint flags_shared_metrics ->
            h !! "/metrics" = None)).
Proof.
  apply (served_paths_do_not_collide flags_shared_metrics world_ok [logA; logB]);
    reflexivity.
Defined.

(** ** Set-up calls *)

(** The set-up calls of the registration loop, however it ends. *)
Lemma registerLoop_prefix (f : Flags) (w : World) (cfg cs : list LogConfig) (s : State) :
  exists ev k,
    trace (fst (registerLoop f w cfg cs s)) = (trace s ++ ev)%list
    /\ List.filter is_setup ev = List.map EvSetUpInstance (take k cs)
    /\ forall i c,
         (S i < k)%nat -> cs !! i = Some c ->
         exists h, SetUpInstance w c (rpcDeadlineFlag f) = inr h.
Proof.
  revert s. induction cs as [|c cs IH]; intros s.
  { exists [], 0%nat. cbn. rewrite app_nil_r. split; [done|]. split; [done|]. intros; lia. }
  unfold registerLoop in *. cbn [for_range]. rewrite !bind_run, emit_run.
  destruct (SetUpInstance w c (rpcDeadlineFlag f)) as [e|hc] eqn:E.
  { exists [EvSetUpInstance c; EvLog FATAL (MsgSetUpFailed cfg e)], 1%nat.
    split; [cbn; by rewrite <- app_assoc|]. split; [done|]. intros; lia. }
  rewrite ret_bind.
  set (s1 := add_events [EvSetUpInstance c] s).
  destruct (handle_loop_run (map_to_list hc) s1) as (ev1 & Hst1 & Hev1 & _).
  cbn zeta in Hst1.
  assert (Hf1 : List.filter is_setup ev1 = []).
  { apply filter_false. eapply Forall_impl; [exact Hev1|]. by intros ? [_ ?]. }
  destruct (for_range (map_to_list hc) _ s1) as [s2 o2]. cbn [fst] in Hst1.
  assert (Ht2 : trace s2 = (trace s ++ EvSetUpInstance c :: ev1)%list).
  { rewrite Hst1. unfold s1. cbn. by rewrite <- app_assoc. }
  destruct o2 as [[]|code|msg].
  - destruct (IH s2) as (ev2 & k & Htr & Hf2 & Hok).
    exists (EvSetUpInstance c :: ev1 ++ ev2)%list, (S k). split; [|split].
    + rewrite Htr, Ht2. by rewrite <- app_assoc.
    + cbn. by rewrite List.filter_app, Hf1, Hf2.
    + intros [|i] c' Hi Hc'; cbn in Hc'.
      * simplify_eq. by exists hc.
      * apply (Hok i); [lia|done].
  - exists (EvSetUpInstance c :: ev1), 1%nat. cbn [fst]. split; [done|].
    split; [cbn; by rewrite Hf1|]. intros; lia.
  - exists (EvSetUpInstance c :: ev1), 1%nat. cbn [fst]. split; [done|].
    split; [cbn; by rewrite Hf1|]. intros; lia.
Qed.

(** X9: logs are set up in configuration order, and not after a failure.  In
    every run the set-up calls made are those of the first [k] configured
    logs, for some [k], once each and in order, and the set-up of every log
    before the last one called has succeeded: once a set-up fails (or a
    handler cannot be installed) no further log is set up. *)
Theorem setups_in_order_until_failure (f : Flags) (w : World) (cfg : list LogConfig) :
  LogConfigFromFile w (logConfigFlag f) = inr cfg ->
  exists k,
    List.filter is_setup (run_trace f w) = List.map EvSetUpInstance (take k cfg)
    /\ forall i c,
         (S i < k)%nat -> cfg !! i = Some c ->
         exists h, SetUpInstance w c (rpcDeadlineFlag f) = inr h.
Proof.
  intros Hcfg.
  destruct (reaches_dial f w) eqn:Hreach.
  2:{ destruct (process_no_dial f w Hreach) as (tr & Hp & Hf & _).
      exists 0%nat. split; [|intros; lia].
      unfold run_trace. rewrite Hp. cbn [fst trace st take List.map].
      apply filter_false. eapply Forall_impl; [exact Hf|]. by intros e (_ & _ & ? & _). }
  destruct (reaches_dial_inv f w Hreach) as (cfg' & Hcfg' & Hnew).
  rewrite Hcfg in Hcfg'. injection Hcfg' as <-.
  destruct (grpc_Dial w (rpcBackendFlag f) (resolver_of f)) as [e|] eqn:Hdial.
  { exists 0%nat. split; [|intros; lia].
    unfold run_trace. rewrite (process_dial_failed f w cfg e Hcfg Hnew Hdial).
    cbn [fst trace st take List.map]. rewrite List.filter_app.
    rewrite (proj1 (seg_no_registration _ _ _ (seg_tr_pre f) ltac:(lia))). done. }
  destruct (loop_trace f w cfg Hcfg Hnew Hdial)
    as (s1 & o1 & ev & extra & Hloop & Ht1 & Htr & Hseg & _).
  destruct (registerLoop_prefix f w cfg cfg (st f (tr_pre f) (DeferConnClose :: ds_pre f)))
    as (ev' & k & Htr' & Hf & Hok).
  rewrite Hloop in Htr'. cbn [fst trace st] in Htr'.
  assert (ev' = ev) as -> by (apply (app_inv_head (tr_pre f)); congruence).
  exists k. split; [|done].
  rewrite Htr, !List.filter_app, Hf.
  rewrite (proj1 (seg_no_registration _ _ _ (seg_tr_pre f) ltac:(lia))).
  rewrite (proj1 (seg_no_registration _ _ _ Hseg ltac:(lia))).
  by rewrite app_nil_r.
Qed.

Lemma setups_in_order_until_failure_witness :
  exists k,
    List.filter is_setup (run_trace flags_static world_logB_fails)
    = List.map EvSetUpInstance (take k [logA; logB])
    /\ forall i c,
         (S i < k)%nat -> [logA; logB] !! i = Some c ->
         exists h, SetUpInstance world_logB_fails c (rpcDeadlineFlag flags_static) = inr h.
Proof.
  apply (setups_in_order_until_failure flags_static world_logB_fails [logA; logB]).
  reflexivity.
Defined.

(** ** The etcd client *)

(** X10: the endpoints of the etcd client.  An etcd client is created only in
    the dynamic variant, and with the pieces of [--etcd_servers] between its
    commas: there is at least one, none holds a comma, and joined by commas
    they give the flag back. *)
Theorem etcd_client_endpoints (f : Flags) (w : World) (eps : list string) :
  In (EvEtcdNew eps) (run_trace f w) ->
  dynamic f = true
  /\ eps <> []
  /\ String.concat "," eps = etcdServers f
  /\ Forall (fun a => has_char "," a = false) eps.
Proof.
  intros Hin.
  assert (dynamic f = true /\ eps = etcd_endpoints f) as [Hdyn ->].
  { destruct (reaches_dial f w) eqn:Hreach.
    - destruct (run_parts f w Hreach) as (mid & Htr & [_ Hmid] & _).
      rewrite Htr in Hin. apply in_app_or in Hin as [Hin|Hin].
      + unfold tr_pre, tr_announce in Hin. destruct (dynamic f); cbn in Hin.
        * destruct Hin as [Hin|[Hin|[Hin|Hin]]]; try discriminate Hin.
          -- by injection Hin as <-.
          -- repeat (destruct Hin as [Hin|Hin]; [discriminate Hin|]). done.
        * repeat (destruct Hin as [Hin|Hin]; [discriminate Hin|]). done.
      + apply in_app_or in Hin as [Hin|Hin].
        * rewrite Forall_forall in Hmid. apply list_elem_of_In, Hmid in Hin.
          cbn in Hin. lia.
        * destruct (exit_status f w =? 1)%Z; [done|].
          destruct (seg_tr_defers f) as [_ Hd]. rewrite Forall_forall in Hd.
          apply list_elem_of_In, Hd in Hin. cbn in Hin. lia.
    - destruct (process_no_dial f w Hreach) as (tr & Hp & _ & Hf).
      unfold run_trace in Hin. rewrite Hp in Hin. cbn [fst trace st] in Hin.
      rewrite Forall_forall in Hf. apply list_elem_of_In, Hf in Hin as [_ Hin].
      by apply Hin. }
  split; [done|]. unfold etcd_endpoints, strings_Split.
  split; [apply split_from_not_nil|].
  split; [by rewrite split_from_concat|]. by apply split_from_no_sep.
Qed.

Lemma etcd_client_endpoints_witness :
  dynamic flags_dynamic = true
  /\ ["etcd1:2379"; "etcd2:2379"] <> []
  /\ String.concat "," ["etcd1:2379"; "etcd2:2379"] = etcdServers flags_dynamic
  /\ Forall (fun a => has_char "," a = false) ["etcd1:2379"; "etcd2:2379"].
Proof.
  apply (etcd_client_endpoints flags_dynamic world_no_etcd).
  right; right; left; reflexivity.
Defined.

(** ** How much the refresh goroutine logs *)

Lemma failed_fetches_S (w : World) (c : LogConfig) (start n : nat) :
  failed_fetches w c start (S n) =
  ((match GetTreeHead w (LogId c) (Prefix c) start with Some _ => 1 | None => 0 end)
   + failed_fetches w c (S start) n)%nat.
Proof.
  unfold failed_fetches. cbn [seq List.filter].
  by destruct (GetTreeHead w (LogId c) (Prefix c) start).
Qed.

Lemma refresh_tick_logs (f : Flags) (w : World) (c : LogConfig) (t : Time) (s : State) :
  exists s',
    refresh_tick f w c t s = (s', Ok tt)
    /\ rpcs s' = S (rpcs s)
    /\ List.length (List.filter is_log (trace s')) =
       (List.length (List.filter is_log (trace s))
        + (if (1 <=? v f)%Z then 1 else 0)
        + match GetTreeHead w (LogId c) (Prefix c) (rpcs s) with
          | Some _ => 1
          | None => 0
          end)%nat.
Proof.
  unfold refresh_tick, glog_V_Infof, glog_Infof, glog_Warningf, ctfe_GetTreeHead.
  destruct (1 <=? v f)%Z;
    destruct (GetTreeHead w (LogId c) (Prefix c) (rpcs s)) as [e|] eqn:E;
    eexists; (split; [rewrite ?bind_run, ?emit_run; cbn; rewrite E; reflexivity|]);
    (split; [reflexivity|]); cbn; rewrite !List.filter_app, !length_app; cbn; lia.
Qed.

Lemma refresh_loop_logs (f : Flags) (w : World) (c : LogConfig)
    (ticks : list Time) (s : State) :
  List.length (List.filter is_log (trace (fst (for_range ticks (refresh_tick f w c) s)))) =
  (List.length (List.filter is_log (trace s))
   + (if (1 <=? v f)%Z then List.length ticks else 0)
   + failed_fetches w c (rpcs s) (List.length ticks))%nat.
Proof.
  revert s. induction ticks as [|t ticks IH]; intros s.
  { cbn. unfold failed_fetches. cbn. destruct (1 <=? v f)%Z; lia. }
  cbn [for_range]. rewrite bind_run.
  destruct (refresh_tick_logs f w c t s) as (s' & -> & Hn & Hl).
  rewrite IH, Hl, Hn. cbn [List.length]. rewrite failed_fetches_S.
  destruct (1 <=? v f)%Z; lia.
Qed.

(** X11: the log lines of a refresh goroutine.  After [n] ticks the goroutine
    of a log has written one start line, one line for each tick when the
    verbosity is at least 1, and one warning for each fetch that failed: at
    the default verbosity a goroutine whose fetches succeed writes one line,
    however long it runs. *)
Theorem refresher_log_lines (f : Flags) (w : World) (c : LogConfig) (ticks : list Time) :
  List.length (List.filter is_log (refresher_trace f w c ticks)) =
  (1 + (if (1 <=? v f)%Z then List.length ticks else 0)
   + failed_fetches w c 0 (List.length ticks))%nat.
Proof.
  unfold refresher_trace. rewrite refresher_run, refresh_loop_logs. reflexivity.
Qed.

(** ** When signals are awaited *)

Lemma seg_no_await (a b : nat) (l : list Event) :
  seg a b l -> (b < 6 \/ 6 < a)%nat -> List.filter is_await l = [].
Proof.
  intros [_ Hf] Hab. apply filter_false. eapply Forall_impl; [exact Hf|].
  intros e He. cbn in He. destruct e as [| | | | | | | | | |[]| |]; cbn in *; (done || lia).
Qed.

Lemma not_serves_no_await (f : Flags) (w : World) :
  serves f w = false -> List.filter is_await (run_trace f w) = [].
Proof.
  unfold serves. generalize (process_run f w).
  generalize (run_trace f w) (final_mux f w) (exit_status f w).
  intros tr mux code H. destruct H as
    [err _|cfg err _ _ _|cfg e _ _|cfg ev m c e _ Hev _ _|cfg ev evm m _ Hev Hevm
    |cfg ev hs m sig Hcfg Hreg Hroutes Hs|cfg ev hs m err Hcfg Hreg Hroutes Hs];
    intros Hno.
  - done.
  - done.
  - rewrite List.filter_app, (seg_no_await _ _ _ (seg_tr_pre f)) by lia. done.
  - by rewrite List.filter_app, (seg_no_await _ _ _ (seg_tr_pre f)),
      (seg_no_await _ _ _ (seg_const _ _ Hev)) by lia.
  - rewrite !List.filter_app, (seg_no_await _ _ _ (seg_tr_pre f)),
      (seg_no_await _ _ _ (seg_const _ _ Hev)),
      (seg_no_await _ _ _ (seg_tr_defers f)) by lia.
    by destruct Hevm as [->| ->].
  - rewrite !existsb_app, tr_after_listens in Hno. cbn [orb] in Hno.
    by rewrite !orb_true_r in Hno.
  - rewrite !existsb_app, tr_after_listens in Hno. cbn [orb] in Hno.
    by rewrite !orb_true_r in Hno.
Qed.

(** X12: termination signals are awaited only from the moment of serving.
    The [awaitSignal] goroutine is started once, as the last thing before the
    main [ListenAndServe], in the runs that get that far; a run that stops
    earlier never starts it, so while the process starts up (reading the
    configuration, dialling, registering) no signal is handled by
    [awaitSignal]. *)
Theorem signals_awaited_only_when_serving (f : Flags) (w : World) :
  if serves f w
  then exists pre post,
         run_trace f w
         = (pre ++ [EvGo GAwaitSignal; EvListenAndServe (httpEndpoint f)] ++ post)%list
         /\ List.filter is_await pre = []
         /\ List.filter is_await post = []
  else List.filter is_await (run_trace f w) = [].
Proof.
  destruct (serves f w) eqn:Hserves; [|by apply not_serves_no_await].
  destruct (serves_inv f w Hserves)
    as (cfg & ev & hs & _ & (Hev & _) & _ & Htr & _).
  exists (tr_pre f ++ ev ++ tr_metrics f
          ++ tr_refresh f (S (List.length (tr_pre f ++ ev))) cfg)%list.
  exists (match serving w with
          | SignalReceived sig => [EvLog WARNING (MsgSignalReceived sig); EvFlush]
          | ListenerReturned err =>
              EvLog WARNING (MsgServerExited err) :: EvFlush :: tr_defers f
          end).
  split; [|split].
  - rewrite Htr. unfold tr_after, tr_serve. rewrite <- !app_assoc. cbn [app].
    destruct (serving w); by rewrite ?app_nil_r.
  - rewrite !List.filter_app.
    rewrite (seg_no_await _ _ _ (seg_tr_pre f)) by lia.
    rewrite (seg_no_await _ _ _ (seg_const _ _ Hev)) by lia.
    rewrite (seg_no_await _ _ _ (seg_const _ _ (tr_metrics_phase f))) by lia.
    by rewrite (seg_no_await _ _ _ (seg_const _ _ (tr_refresh_phase f _ cfg))) by lia.
  - destruct (serving w); [done|]. cbn.
    exact (seg_no_await _ _ _ (seg_tr_defers f) ltac:(lia)).
Qed.

(** * The claims that need the whole run *)

(** ** A signal while serving *)

Lemma serves_path (f : Flags) (w : World) :
  serves f w = true ->
  exists cfg,
    LogConfigFromFile w (logConfigFlag f) = inr cfg
    /\ (if dynamic f then clientv3_New w (etcd_endpoints f) else None) = None
    /\ grpc_Dial w (rpcBackendFlag f) (resolver_of f) = None.
Proof.
  intros Hserves. unfold serves in Hserves.
  destruct (reaches_dial f w) eqn:Hreach.
  2:{ destruct (process_no_dial f w Hreach) as (tr & Hp & _ & Hf).
      unfold run_trace in Hserves. rewrite Hp in Hserves. cbn [fst trace st] in Hserves.
      apply existsb_exists in Hserves as (e & Hin & He).
      rewrite Forall_forall in Hf. apply list_elem_of_In, Hf in Hin as [Hin _].
      congruence. }
  destruct (reaches_dial_inv f w Hreach) as (cfg & Hcfg & Hnew).
  exists cfg. split; [done|]. split; [done|].
  destruct (grpc_Dial w (rpcBackendFlag f) (resolver_of f)) as [e|] eqn:Hdial; [|done].
  unfold run_trace in Hserves.
  rewrite (process_dial_failed f w cfg e Hcfg Hnew Hdial) in Hserves.
  cbn [fst trace st] in Hserves.
  rewrite existsb_app, (seg_no_listen _ _ _ (seg_tr_pre f)) in Hserves by lia.
  done.
Qed.

(** The deferred calls that are pending when a serving run ends. *)
Lemma serves_deferred (f : Flags) (w : World) (sig : Signal) :
  serves f w = true ->
  serving w = SignalReceived sig ->
  deferred (fst (process f w)) = DeferConnClose :: ds_pre f.
Proof.
  intros Hserves Hs.
  destruct (serves_path f w Hserves) as (cfg & Hcfg & Hnew & Hdial).
  destruct (serves_loop_ok f w Hserves) as (cfg' & s1' & Hcfg' & Hloop' & Hmetrics).
  rewrite Hcfg in Hcfg'. injection Hcfg' as <-.
  destruct (process_loop f w cfg Hcfg Hnew Hdial)
    as (s1 & o1 & ev & Hloop & Hst & _ & Hp).
  cbn zeta in Hloop. rewrite Hloop' in Hloop. injection Hloop as <- <-.
  assert (Hd1 : deferred s1' = DeferConnClose :: ds_pre f) by (by rewrite Hst).
  rewrite Hp. cbn zeta. rewrite Hs.
  destruct (bool_decide (metricsAt f <> httpEndpoint f)) eqn:Hm; [done|].
  apply bool_decide_eq_false in Hm. apply dec_stable in Hm.
  by rewrite (Hmetrics Hm).
Qed.

(** C2: the defect.  In the dynamic variant [main] announces the process and
    defers the retraction of the two announcements and the close of the
    backend connection; but a termination signal that arrives while the
    process serves ends it through [os.Exit(1)] in the callback of
    [awaitSignal], and [os.Exit] runs no deferred call.  In every such run:
    the two announcements were made, no retraction is attempted and the
    connection is not closed anywhere in the run, both deferred calls are
    still pending when the process ends, and the status is 1. *)
Theorem signal_exit_runs_no_deferred_call (f : Flags) (w : World) (sig : Signal) :
  dynamic f = true ->
  serves f w = true ->
  serving w = SignalReceived sig ->
  exit_status f w = 1%Z
  /\ List.filter is_announce (run_trace f w)
     = [ EvEtcdUpdate (etcdHTTPService f) {| Op := Add; Addr := httpEndpoint f |};
         EvEtcdUpdate (etcdMetricsService f) {| Op := Add; Addr := metricsAt f |} ]
  /\ Forall (fun e => is_conn_close e = false /\ is_retract e = false) (run_trace f w)
  /\ deferred (fst (process f w))
     = [ DeferConnClose;
         DeferRemovePresence (resolver_of f)
           (etcdHTTPService f) {| Op := Delete; Addr := httpEndpoint f |}
           (etcdMetricsService f) {| Op := Delete; Addr := metricsAt f |} ].
Proof.
  intros Hdyn Hserves Hs.
  destruct (serves_inv f w Hserves) as (cfg & ev & hs & _ & (Hev & _) & _ & Htr & Hex).
  rewrite Hs in Htr, Hex. rewrite app_nil_r in Htr.
  split; [done|]. split; [|split].
  - rewrite Htr, !List.filter_app.
    rewrite (filter_false _ _ (seg_no_announce _ _ _ (seg_const _ _ Hev) ltac:(lia))).
    rewrite (filter_false _ _ (seg_no_announce _ _ _ (seg_tr_after f w cfg _) ltac:(lia))).
    unfold tr_pre, tr_announce. by rewrite Hdyn.
  - rewrite Htr, !Forall_app. split; [|split].
    + exact (seg_no_cleanup _ _ _ (seg_tr_pre f) ltac:(lia)).
    + exact (seg_no_cleanup _ _ _ (seg_const _ _ Hev) ltac:(lia)).
    + exact (seg_no_cleanup _ _ _ (seg_tr_after f w cfg _) ltac:(lia)).
  - rewrite (serves_deferred f w sig Hserves Hs). unfold ds_pre. by rewrite Hdyn.
Qed.

Lemma signal_exit_runs_no_deferred_call_witness :
  exit_status flags_dynamic world_sigterm = 1%Z
  /\ List.filter is_announce (run_trace flags_dynamic world_sigterm)
     = [ EvEtcdUpdate "trillian-ctfe-http" {| Op := Add; Addr := "localhost:6962" |};
         EvEtcdUpdate "trillian-ctfe-metrics-http"
           {| Op := Add; Addr := "localhost:6963" |} ]
  /\ Forall (fun e => is_conn_close e = false /\ is_retract e = false)
       (run_trace flags_dynamic world_sigterm)
  /\ deferred (fst (process flags_dynamic world_sigterm))
     = [ DeferConnClose;
         DeferRemovePresence (GRPCResolver ["etcd1:2379"; "etcd2:2379"])
           "trillian-ctfe-http" {| Op := Delete; Addr := "localhost:6962" |}
           "trillian-ctfe-metrics-http" {| Op := Delete; Addr := "localhost:6963" |} ].
Proof.
  apply (signal_exit_runs_no_deferred_call flags_dynamic world_sigterm SIGTERM); reflexivity.
Defined.

(** ** The static variant: the resolver in use *)

(** C7: with no etcd servers configured the static variant is used.  A run
    whose configuration loads, with a backend list that is not empty: never
    contacts the directory (it creates no etcd client and makes no announce
    or retract call); dials once, with the fixed resolver, on the configured
    backend list; and the endpoint set of that dial is the list of the
    comma-separated addresses of the configuration: there is at least one,
    none holds a comma, and joined by commas they are the configured
    string. *)
Theorem static_variant_uses_fixed_list (f : Flags) (w : World) (cfg : list LogConfig) :
  etcdServers f = "" ->
  LogConfigFromFile w (logConfigFlag f) = inr cfg ->
  rpcBackendFlag f <> "" ->
  Forall (fun e => is_etcd e = false) (run_trace f w)
  /\ List.filter is_dial (run_trace f w)
     = [EvDial (rpcBackendFlag f) FixedBackendResolver]
  /\ exists eps,
      List.map dial_endpoints (List.filter is_dial (run_trace f w)) = [Some eps]
      /\ eps = strings_Split (rpcBackendFlag f) ","
      /\ eps <> []
      /\ String.concat "," eps = rpcBackendFlag f
      /\ Forall (fun a => has_char "," a = false) eps.
Proof.
  intros Hno Hcfg Hflag.
  assert (dynamic f = false) as Hdyn by (unfold dynamic; by rewrite Hno).
  assert (reaches_dial f w = true) as Hreach
    by (unfold reaches_dial; by rewrite Hcfg, Hdyn).
  assert (Hdial : List.filter is_dial (run_trace f w)
                  = [EvDial (rpcBackendFlag f) FixedBackendResolver]).
  { destruct (run_parts f w Hreach) as (mid & -> & _ & Hnd).
    rewrite !List.filter_app, (filter_false _ _ Hnd).
    assert (List.filter is_dial (tr_pre f)
            = [EvDial (rpcBackendFlag f) FixedBackendResolver]) as ->
      by (unfold tr_pre, resolver_of; by rewrite Hdyn).
    destruct (exit_status f w =? 1)%Z; [done|].
    unfold tr_defers. by rewrite Hdyn. }
  split; [|split; [exact Hdial|]].
  - pose proof (Run_static _ _ _ _ _ (process_run f w) Hdyn) as H.
    eapply Forall_impl; [exact H|]. by intros e [He _].
  - exists (strings_Split (rpcBackendFlag f) ","). rewrite Hdial. split; [|split; [done|]].
    + cbn. unfold FixedBackendResolver_Resolve. by rewrite bool_decide_eq_false_2.
    + unfold strings_Split. split; [apply split_from_not_nil|].
      split; [by rewrite split_from_concat|by apply split_from_no_sep].
Qed.

Lemma static_variant_uses_fixed_list_witness :
  Forall (fun e => is_etcd e = false) (run_trace flags_static world_ok)
  /\ List.filter is_dial (run_trace flags_static world_ok)
     = [EvDial "h1:80,h2:80" FixedBackendResolver]
  /\ exists eps,
      List.map dial_endpoints (List.filter is_dial (run_trace flags_static world_ok))
      = [Some eps]
      /\ eps = ["h1:80"; "h2:80"]
      /\ eps <> []
      /\ String.concat "," eps = "h1:80,h2:80"
      /\ Forall (fun a => has_char "," a = false) eps.
Proof.
  apply (static_variant_uses_fixed_list flags_static world_ok [logA; logB]);
    [reflexivity|reflexivity|discriminate].
Defined.

(** ** Failed announcements *)





